(** * The job server of the Sora 2 quickstart: simulator and upstream proxy

    A shallow embedding of [server/server.ts]: the job data model, the
    in-memory simulator ([createMockJob], [cancelMockJob] and the two timer
    callbacks) together with the part of the Node.js run time it leans on
    (a store of job objects, the timer table, [setTimeout], [clearTimeout]),
    and the three Express handlers, whose proxy branches talk to the
    upstream provider through [fetch]. *)

From stdpp Require Import gmap strings list fin_maps.
From Stdlib Require Import ZArith NArith Ascii.

Local Open Scope string_scope.
Local Set Warnings "-register-all".

(** ** Values read from a request or relayed from upstream *)

(** A parsed JSON document. Numbers are only ever tested ([typeof], truthiness)
    and passed along, never computed with, so integral values stand for them. *)
Inductive JSON : Type :=
  | JNull
  | JBool (b : bool)
  | JNum (n : Z)
  | JStr (s : string)
  | JArr (items : list JSON)
  | JObj (fields : list (string * JSON)).

(** A JavaScript value obtained by reading a property: [None] is [undefined]. *)
Definition JSValue : Type := option JSON.

Fixpoint assoc (key : string) (fields : list (string * JSON)) : JSValue :=
  match fields with
  | [] => None
  | (k, v) :: rest => if String.eqb k key then Some v else assoc key rest
  end.

(** [o.key]: none of the keys the handlers read lives on a prototype, so
    only a parsed object can answer. *)
Definition getProp (key : string) (o : JSON) : JSValue :=
  match o with
  | JObj fields => assoc key fields
  | _ => None
  end.

(** [v ?? {}] *)
Definition orEmptyObject (v : JSValue) : JSON :=
  match v with
  | None | Some JNull => JObj []
  | Some o => o
  end.

(** Truthiness, as [!v] sees it. *)
Definition truthy (v : JSValue) : bool :=
  match v with
  | None => false
  | Some JNull => false
  | Some (JBool b) => b
  | Some (JNum n) => negb (n =? 0)%Z
  | Some (JStr s) => negb (String.eqb s "")
  | Some (JArr _) => true
  | Some (JObj _) => true
  end.

(** [typeof v === "string"] and [typeof v === "number"], with the value. *)
Definition asString (v : JSValue) : option string :=
  match v with Some (JStr s) => Some s | _ => None end.

Definition asNumber (v : JSValue) : option Z :=
  match v with Some (JNum n) => Some n | _ => None end.

(** [s.trim()], on strings of ASCII code units. *)
Definition isWhiteSpace (c : ascii) : bool :=
  let n := nat_of_ascii c in
  ((9 <=? n)%nat && (n <=? 13)%nat) || (n =? 32)%nat.

Fixpoint trimStart (s : string) : string :=
  match s with
  | String c rest => if isWhiteSpace c then trimStart rest else s
  | EmptyString => EmptyString
  end.

Fixpoint trimEnd (s : string) : string :=
  match s with
  | String c rest =>
      match trimEnd rest with
      | EmptyString => if isWhiteSpace c then EmptyString else String c EmptyString
      | rest' => String c rest'
      end
  | EmptyString => EmptyString
  end.

Definition trim (s : string) : string := trimEnd (trimStart s).

(** ** The job data model *)

Record JobOptions : Type := {
  duration : option Z;
  aspect_ratio : option string;
  width : option Z;
  height : option Z;
  prompt : string
}.

Inductive JobStatus : Type :=
  | queued
  | processing
  | succeeded
  | failed
  | canceled.

Global Instance JobStatus_eq_dec : EqDecision JobStatus.
Proof. solve_decision. Defined.

Record JobResult : Type := { video_url : string }.

Record Job : Type := {
  id : string;
  status : JobStatus;
  created_at : string;
  updated_at : string;
  result : option JobResult;
  error : option string;
  options : JobOptions
}.

(** A [NodeJS.Timeout] is known by its handle. *)
Definition Timeout : Type := nat.

(** [interface MockJob extends Job { timers }] *)
Record MockJob : Type := {
  base :> Job;
  timers : list Timeout
}.

(** What a variable of static type [Job] holds at run time: an object with
    the [Job] properties only, or, by structural typing, a stored [MockJob]
    with its [timers] property still on it. *)
Inductive JobValue : Type :=
  | Plain (job : Job)
  | Stored (job : MockJob).

Definition jobOf (v : JobValue) : Job :=
  match v with
  | Plain job => job
  | Stored job => base job
  end.

(** Assignments to the properties of a stored job. *)
Definition setStatus (s : JobStatus) (now : string) (job : MockJob) : MockJob :=
  {| base := {| id := id job; status := s; created_at := created_at job;
                updated_at := now; result := result job; error := error job;
                options := options job |};
     timers := timers job |}.

Definition setResult (r : JobResult) (job : MockJob) : MockJob :=
  {| base := {| id := id job; status := status job; created_at := created_at job;
                updated_at := updated_at job; result := Some r; error := error job;
                options := options job |};
     timers := timers job |}.

Definition pushTimers (hs : list Timeout) (job : MockJob) : MockJob :=
  {| base := base job; timers := timers job ++ hs |}.

Definition serializeJob (job : Job) : Job :=
  {| id := id job;
     status := status job;
     created_at := created_at job;
     updated_at := updated_at job;
     result := result job;
     error := error job;
     options := options job |}.

(** ** The run time the simulator relies on *)

(** Job objects live in a store and are reached by reference: the registry
    and the timer callbacks of a job point at the same object. *)
Definition Loc : Type := nat.

(** The two arrow functions passed to [setTimeout], each closed over [job]. *)
Inductive Callback : Type :=
  | QueueCb (job : Loc)
  | CompletionCb (job : Loc).

Global Instance Callback_eq_dec : EqDecision Callback.
Proof. solve_decision. Defined.

Definition cbJob (cb : Callback) : Loc :=
  match cb with
  | QueueCb job => job
  | CompletionCb job => job
  end.

(** A scheduled timer: its handle, the loop time at which it is due (in
    milliseconds) and what it runs. *)
Record Timer : Type := {
  handle : Timeout;
  due : N;
  callback : Callback
}.

Record World : Type := {
  heap : list MockJob;
  mockJobs : gmap string Loc;
  pending : list Timer;
  nextTimer : Timeout;
  clock : N
}.

(** The process right after start-up: [new Map()], no timer, loop time 0. *)
Definition init : World :=
  {| heap := []; mockJobs := ∅; pending := []; nextTimer := 0; clock := 0 |}.

Definition setHeap (h : list MockJob) (w : World) : World :=
  {| heap := h; mockJobs := mockJobs w; pending := pending w;
     nextTimer := nextTimer w; clock := clock w |}.

Definition setPending (p : list Timer) (w : World) : World :=
  {| heap := heap w; mockJobs := mockJobs w; pending := p;
     nextTimer := nextTimer w; clock := clock w |}.

(** A new object; its reference is the next free place of the store. *)
Definition alloc (job : MockJob) (w : World) : Loc * World :=
  (length (heap w), setHeap (heap w ++ [job]) w).

Definition modifyJob (l : Loc) (f : MockJob -> MockJob) (w : World) : World :=
  match heap w !! l with
  | Some job => setHeap (<[l := f job]> (heap w)) w
  | None => w
  end.

Definition setTimeout (cb : Callback) (delay : N) (w : World) : Timeout * World :=
  let h := nextTimer w in
  (h, {| heap := heap w; mockJobs := mockJobs w;
         pending := pending w ++ [{| handle := h; due := (clock w + delay)%N; callback := cb |}];
         nextTimer := S h; clock := clock w |}).

Definition stillPending (h : Timeout) (t : Timer) : bool :=
  negb (Nat.eqb (handle t) h).

Definition clearTimeout (h : Timeout) (w : World) : World :=
  setPending (filter (fun t => stillPending h t = true) (pending w)) w.

(** [mockJobs.set(id, job)] *)
Definition registerJob (key : string) (l : Loc) (w : World) : World :=
  {| heap := heap w; mockJobs := <[key := l]> (mockJobs w); pending := pending w;
     nextTimer := nextTimer w; clock := clock w |}.

(** [mockJobs.get(id)]: the reference held under [id] and the object behind
    it ([undefined] when there is none; an entry always points at a live
    object). *)
Definition mockJobsGet (key : string) (w : World) : option (Loc * MockJob) :=
  match mockJobs w !! key with
  | Some l =>
      match heap w !! l with
      | Some job => Some (l, job)
      | None => None
      end
  | None => None
  end.

(** ** The simulator *)

(** [randomUUID()] and [new Date().toISOString()] are read from the
    environment: [uuid] and [now] are what they returned. *)
Definition createMockJob (options : JobOptions) (uuid now : string) (w : World)
  : Job * World :=
  let id := uuid in
  let job := {| base := {| id := id; status := queued; created_at := now;
                           updated_at := now; result := None; error := None;
                           options := options |};
                timers := [] |} in
  let '(l, w) := alloc job w in
  let '(queueTimer, w) := setTimeout (QueueCb l) 1000 w in
  let '(completionTimer, w) := setTimeout (CompletionCb l) 5000 w in
  let w := modifyJob l (pushTimers [queueTimer; completionTimer]) w in
  let w := registerJob id l w in
  (* [push] touched [timers] only, which [serializeJob] does not read *)
  (serializeJob job, w).

Definition mockVideoUrl (job : Job) : string :=
  "https://cdn.openai.com/sora/videos/mock-" ++ id job ++ ".mp4".

(** The bodies of the two callbacks. *)
Definition runCallback (cb : Callback) (now : string) (w : World) : World :=
  match cb with
  | QueueCb l => modifyJob l (setStatus processing now) w
  | CompletionCb l =>
      modifyJob l (fun job => setResult {| video_url := mockVideoUrl job |}
                                (setStatus succeeded now job)) w
  end.

Definition isTerminal (s : JobStatus) : bool :=
  match s with
  | succeeded | failed | canceled => true
  | queued | processing => false
  end.

Definition cancelMockJob (id now : string) (w : World) : option JobValue * World :=
  match mockJobsGet id w with
  | None => (None, w)
  | Some (l, job) =>
      if isTerminal (status job) then (Some (Stored job), w)
      else
        let w := foldl (fun w timer => clearTimeout timer w) w (timers job) in
        let w := modifyJob l (setStatus canceled now) w in
        (Some (Plain (serializeJob (setStatus canceled now job))), w)
  end.

(** ** The HTTP surface *)

(** Load-time configuration, read once from the environment. *)
Record Config : Type := {
  MOCK_MODE : bool;
  SORA_API_BASE_URL : string;
  SORA_API_KEY : string
}.

(** What [res.json] is handed. *)
Inductive Payload : Type :=
  | ErrorObj (message : string)   (* [{ error: message }] *)
  | JobObj (job : JobValue)
  | Data (data : JSON).           (* a body parsed from an upstream answer *)

Inductive Body : Type :=
  | NoBody                        (* [res.send()] *)
  | JsonBody (payload : Payload). (* [res.json(payload)] *)

Record HttpResponse : Type := {
  statusCode : Z;
  body : Body
}.

Definition respond (code : Z) (payload : Payload) : HttpResponse :=
  {| statusCode := code; body := JsonBody payload |}.

(** The property names [JSON.stringify] writes for a job: the own
    properties whose value is not [undefined]. A projection made by
    [serializeJob] has the seven [Job] keys; a stored job has what was
    assigned to it, [timers] included. *)
Definition optionalKey {A : Type} (key : string) (v : option A) : list string :=
  match v with
  | Some _ => [key]
  | None => []
  end.

Definition jobKeys (v : JobValue) : list string :=
  match v with
  | Plain job =>
      ["id"; "status"; "created_at"; "updated_at"]
        ++ optionalKey "result" (result job)
        ++ optionalKey "error" (error job)
        ++ ["options"]
  | Stored job =>
      ["id"; "status"; "created_at"; "updated_at"; "options"; "timers"]
        ++ optionalKey "result" (result job)
        ++ optionalKey "error" (error job)
  end.

Definition payloadKeys (p : Payload) : list string :=
  match p with
  | ErrorObj _ => ["error"]
  | JobObj v => jobKeys v
  | Data (JObj fields) => fields.*1
  | Data _ => []
  end.

Definition bodyKeys (b : Body) : list string :=
  match b with
  | NoBody => []
  | JsonBody p => payloadKeys p
  end.

(** The names the public projection of a job may carry. *)
Definition projectionKeys : list string :=
  ["id"; "status"; "created_at"; "updated_at"; "options"; "result"; "error"].

(** *** Talking to the upstream provider *)

Record FetchRequest : Type := {
  url : string;
  method : string;
  headers : list (string * string);
  payload : option JSON
}.

(** How [await fetch(...)] followed by [await response.json()] can turn out:
    [fetch] rejects, or it resolves with a status and a body that parses
    ([Some data]) or makes [response.json()] reject ([None]). *)
Inductive FetchOutcome : Type :=
  | Rejected
  | Resolved (status : Z) (json : option JSON).

(** [response.ok] *)
Definition ok (status : Z) : bool := ((200 <=? status) && (status <=? 299))%Z.

(** A handler either answers, or issues one request and goes on with
    whatever comes back. *)
Inductive Prog (A : Type) : Type :=
  | Ret (a : A)
  | Fetch (rq : FetchRequest) (k : FetchOutcome -> Prog A).

Arguments Ret {A} a.
Arguments Fetch {A} rq k.

(** The requests a handler sends when the network answers as [net] says. *)
Fixpoint requests {A : Type} (net : FetchRequest -> FetchOutcome) (p : Prog A)
  : list FetchRequest :=
  match p with
  | Ret _ => []
  | Fetch rq k => rq :: requests net (k (net rq))
  end.

Fixpoint outcome {A : Type} (net : FetchRequest -> FetchOutcome) (p : Prog A) : A :=
  match p with
  | Ret a => a
  | Fetch rq k => outcome net (k (net rq))
  end.

Definition bearer (cfg : Config) : string * string :=
  ("Authorization", "Bearer " ++ SORA_API_KEY cfg).

Definition field (key : string) (v : JSValue) : list (string * JSON) :=
  match v with
  | Some j => [(key, j)]
  | None => []
  end.

Definition promptRequired : HttpResponse :=
  respond 400 (ErrorObj "Prompt is required").

Definition keyNotConfigured : HttpResponse :=
  respond 500 (ErrorObj "SORA_API_KEY is not configured").

Definition jobNotFound : HttpResponse :=
  respond 404 (ErrorObj "Job not found").

(** [!prompt || typeof prompt !== "string"] fails: the prompt to use. *)
Definition validPrompt (prompt : JSValue) : option string :=
  if negb (truthy prompt) then None else asString prompt.

Definition nonBlank (v : JSValue) : option string :=
  match asString v with
  | Some s => if (0 <? String.length (trim s))%nat then Some s else None
  | None => None
  end.

(** [app.post("/api/generate", ...)] *)
Definition postGenerate (cfg : Config) (reqBody : JSValue) (uuid now : string)
    (w : World) : Prog (HttpResponse * World) :=
  let o := orEmptyObject reqBody in
  let prompt := getProp "prompt" o in
  let duration := getProp "duration" o in
  let aspectRatio := getProp "aspectRatio" o in
  let width := getProp "width" o in
  let height := getProp "height" o in
  match validPrompt prompt with
  | None => Ret (promptRequired, w)
  | Some p =>
      let options := {| prompt := p;
                        duration := asNumber duration;
                        aspect_ratio := nonBlank aspectRatio;
                        width := asNumber width;
                        height := asNumber height |} in
      if MOCK_MODE cfg then
        let '(job, w) := createMockJob options uuid now w in
        Ret (respond 202 (JobObj (Plain job)), w)
      else if String.eqb (SORA_API_KEY cfg) "" then
        Ret (keyNotConfigured, w)
      else
        Fetch {| url := SORA_API_BASE_URL cfg;
                 method := "POST";
                 headers := [("Content-Type", "application/json"); bearer cfg];
                 payload := Some (JObj (field "prompt" prompt
                                          ++ field "duration" duration
                                          ++ field "aspect_ratio" aspectRatio
                                          ++ field "width" width
                                          ++ field "height" height)) |}
          (fun response =>
             match response with
             | Resolved status (Some data) =>
                 if negb (ok status) then Ret (respond status (Data data), w)
                 else Ret (respond 202 (Data data), w)
             | _ =>
                 Ret (respond 500 (ErrorObj "Failed to create video generation job"), w)
             end)
  end.

(** [app.get("/api/jobs/:id", ...)] *)
Definition getJob (cfg : Config) (id : string) (w : World)
  : Prog (HttpResponse * World) :=
  if MOCK_MODE cfg then
    match mockJobsGet id w with
    | None => Ret (jobNotFound, w)
    | Some (_, job) => Ret (respond 200 (JobObj (Plain (serializeJob job))), w)
    end
  else if String.eqb (SORA_API_KEY cfg) "" then
    Ret (keyNotConfigured, w)
  else
    Fetch {| url := SORA_API_BASE_URL cfg ++ "/" ++ id;
             method := "GET";
             headers := [bearer cfg];
             payload := None |}
      (fun response =>
         match response with
         | Resolved status (Some data) =>
             if negb (ok status) then Ret (respond status (Data data), w)
             else Ret (respond 200 (Data data), w)
         | _ =>
             Ret (respond 500 (ErrorObj "Failed to fetch video generation job"), w)
         end).

(** [app.delete("/api/jobs/:id", ...)] *)
Definition deleteJob (cfg : Config) (id now : string) (w : World)
  : Prog (HttpResponse * World) :=
  if MOCK_MODE cfg then
    match cancelMockJob id now w with
    | (None, w) => Ret (jobNotFound, w)
    | (Some job, w) => Ret (respond 200 (JobObj job), w)
    end
  else if String.eqb (SORA_API_KEY cfg) "" then
    Ret (keyNotConfigured, w)
  else
    Fetch {| url := SORA_API_BASE_URL cfg ++ "/" ++ id;
             method := "DELETE";
             headers := [bearer cfg];
             payload := None |}
      (fun response =>
         match response with
         | Rejected =>
             Ret (respond 500 (ErrorObj "Failed to cancel video generation job"), w)
         | Resolved status json =>
             if (status =? 204)%Z then Ret ({| statusCode := 204; body := NoBody |}, w)
             else
               match json with
               | None =>
                   Ret (respond 500 (ErrorObj "Failed to cancel video generation job"), w)
               | Some data =>
                   if negb (ok status) then Ret (respond status (Data data), w)
                   else Ret (respond 200 (Data data), w)
               end
         end).

(** ** The simulator as a transition system *)

(** What can happen to a running server: a request comes in, the event loop
    runs the callback of timer [h], or time passes. The values the
    environment supplies ([randomUUID()], [new Date().toISOString()]) ride
    along with the event that reads them. *)
Inductive Event : Type :=
  | Generate (reqBody : JSValue) (uuid now : string)
  | Poll (id : string)
  | Cancel (id now : string)
  | TimerFires (h : Timeout) (now : string)
  | Elapse (ms : N).

Definition findTimer (h : Timeout) (w : World) : option Timer :=
  List.find (fun t => Nat.eqb (handle t) h) (pending w).

(** A due timer leaves the table, then its callback runs; a timer that is
    not due, or not there any more, does nothing. *)
Definition fireTimer (h : Timeout) (now : string) (w : World) : World :=
  match findTimer h w with
  | Some t =>
      if (due t <=? clock w)%N then runCallback (callback t) now (clearTimeout h w)
      else w
  | None => w
  end.

Definition elapse (ms : N) (w : World) : World :=
  {| heap := heap w; mockJobs := mockJobs w; pending := pending w;
     nextTimer := nextTimer w; clock := (clock w + ms)%N |}.

(** A handler that answers without the network: its answer and the world it
    leaves. One that goes to the network never touches the world. *)
Definition settle (p : Prog (HttpResponse * World)) (w : World)
  : option HttpResponse * World :=
  match p with
  | Ret (r, w') => (Some r, w')
  | Fetch _ _ => (None, w)
  end.

Definition step (cfg : Config) (ev : Event) (w : World) : option HttpResponse * World :=
  match ev with
  | Generate reqBody uuid now => settle (postGenerate cfg reqBody uuid now w) w
  | Poll id => settle (getJob cfg id w) w
  | Cancel id now => settle (deleteJob cfg id now w) w
  | TimerFires h now => (None, fireTimer h now w)
  | Elapse ms => (None, elapse ms w)
  end.

(** Running a history of events, as long as each is [allowed] where it
    happens. *)
Fixpoint run (cfg : Config) (allowed : Event -> World -> bool)
    (evs : list Event) (w : World) : option World :=
  match evs with
  | [] => Some w
  | ev :: rest =>
      if allowed ev w then run cfg allowed rest (step cfg ev w).2 else None
  end.

(** [randomUUID()] does not hand out an id twice. *)
Definition freshIds (ev : Event) (w : World) : bool :=
  match ev with
  | Generate _ uuid _ =>
      match mockJobs w !! uuid with
      | None => true
      | Some _ => false
      end
  | _ => true
  end.

(** The event loop runs timers in the order in which they fall due: the
    one it runs is due no later than any other in the table. *)
Definition dueOrder (ev : Event) (w : World) : bool :=
  match ev with
  | TimerFires h _ =>
      match findTimer h w with
      | Some t => forallb (fun t' => (due t <=? due t')%N) (pending w)
      | None => true
      end
  | _ => true
  end.

(** What a poll of [id] shows. *)
Definition observe (cfg : Config) (id : string) (w : World) : option HttpResponse :=
  (step cfg (Poll id) w).1.

Definition shownStatus (r : HttpResponse) : option JobStatus :=
  match body r with
  | JsonBody (JobObj v) => Some (status (jobOf v))
  | _ => None
  end.

(** ** Deployments and requests used as examples *)

Definition simulatorCfg : Config :=
  {| MOCK_MODE := true;
     SORA_API_BASE_URL := "https://api.openai.com/v1/videos";
     SORA_API_KEY := "" |}.

Definition proxyCfg : Config :=
  {| MOCK_MODE := false;
     SORA_API_BASE_URL := "https://api.openai.com/v1/videos";
     SORA_API_KEY := "sk-test" |}.

Definition keylessCfg : Config :=
  {| MOCK_MODE := false;
     SORA_API_BASE_URL := "https://api.openai.com/v1/videos";
     SORA_API_KEY := "" |}.

Definition catRequest : JSValue := Some (JObj [("prompt", JStr "a cat")]).

Definition anySchedule (ev : Event) (w : World) : bool := true.

(** One job, created and then canceled. *)
Definition canceledWorld : World :=
  (step simulatorCfg (Cancel "job-1" "2025-10-07T00:00:01.000Z")
     (step simulatorCfg (Generate catRequest "job-1" "2025-10-07T00:00:00.000Z") init).2).2.

(** An upstream whose gateway answers 502 with a page that is not JSON. *)
Definition badGateway (rq : FetchRequest) : FetchOutcome := Resolved 502 None.

(** ** Invariants of the simulator *)

(** The moves of the world behind [step], in simulator mode. *)
Inductive Move (w : World) : Event -> World -> Prop :=
  | MoveStay (ev : Event) :
      Move w ev w
  | MoveCreate (reqBody : JSValue) (uuid now : string) (options : JobOptions) :
      Move w (Generate reqBody uuid now) (createMockJob options uuid now w).2
  | MoveCancel (id now : string) (l : Loc) (job : MockJob) :
      mockJobsGet id w = Some (l, job) ->
      isTerminal (status job) = false ->
      Move w (Cancel id now)
        (modifyJob l (setStatus canceled now)
           (foldl (fun w timer => clearTimeout timer w) w (timers job)))
  | MoveFire (h : Timeout) (now : string) (t : Timer) :
      findTimer h w = Some t ->
      (due t <= clock w)%N ->
      Move w (TimerFires h now) (runCallback (callback t) now (clearTimeout h w))
  | MoveElapse (ms : N) :
      Move w (Elapse ms) (elapse ms w).

(** The handle under which a callback was scheduled: the simulator is the
    only caller of [setTimeout], so the job at place [l] owns the handles
    [2 * l] and [2 * l + 1]. *)
Definition handleOf (cb : Callback) : Timeout :=
  match cb with
  | QueueCb l => 2 * l
  | CompletionCb l => 2 * l + 1
  end.

Record storeInv (w : World) : Prop := {
  inv_next : nextTimer w = 2 * length (heap w);
  inv_timers : ∀ (l : Loc) (job : MockJob),
      heap w !! l = Some job -> timers job = [2 * l; 2 * l + 1];
  inv_pending : ∀ t : Timer,
      t ∈ pending w ->
      cbJob (callback t) < length (heap w) ∧ handle t = handleOf (callback t)
}.

(** No timer in the table would touch the job at [l]. *)
Definition noTimerFor (l : Loc) (w : World) : Prop :=
  ∀ t : Timer, t ∈ pending w -> cbJob (callback t) ≠ l.

(** Where a job stands, by status: what it carries and which of its timers
    may still be in the table. *)
Definition jobOk (w : World) (l : Loc) (job : MockJob) : Prop :=
  error job = None
  ∧ match status job with
    | queued =>
        result job = None
        ∧ ∀ tc : Timer, tc ∈ pending w -> callback tc = CompletionCb l ->
            ∃ tq : Timer, tq ∈ pending w ∧ callback tq = QueueCb l ∧ (due tq < due tc)%N
    | processing =>
        result job = None
        ∧ ∀ t : Timer, t ∈ pending w -> callback t ≠ QueueCb l
    | succeeded => is_Some (result job) ∧ noTimerFor l w
    | canceled => result job = None ∧ noTimerFor l w
    | failed => False
    end.

Definition lifeInv (w : World) : Prop :=
  ∀ (l : Loc) (job : MockJob), heap w !! l = Some job -> jobOk w l job.

(** The job registered under [id] is the canceled object at [l], and no
    timer is left that would touch it. *)
Definition settled (id : string) (l : Loc) (w : World) : Prop :=
  mockJobs w !! id = Some l
  ∧ (∃ job : MockJob, heap w !! l = Some job ∧ status job = canceled)
  ∧ noTimerFor l w.

(** The invariant of the data model: a result exactly on [succeeded], an
    error exactly on [failed]. *)
Definition resultErrorInv (job : Job) : Prop :=
  (is_Some (result job) ↔ status job = succeeded)
  ∧ (is_Some (error job) ↔ status job = failed).

(** One job, created, then moved to [processing] by its first timer. *)
Definition processingHistory : list Event :=
  [ Generate catRequest "job-1" "2025-10-07T00:00:00.000Z";
    Elapse 1000;
    TimerFires 0 "2025-10-07T00:00:01.000Z" ].

Definition processingWorld : World :=
  (step simulatorCfg (TimerFires 0 "2025-10-07T00:00:01.000Z")
     (step simulatorCfg (Elapse 1000)
        (step simulatorCfg (Generate catRequest "job-1" "2025-10-07T00:00:00.000Z")
           init).2).2).2.

Definition processingJob : MockJob :=
  {| base := {| id := "job-1"; status := processing;
                created_at := "2025-10-07T00:00:00.000Z";
                updated_at := "2025-10-07T00:00:01.000Z";
                result := None; error := None;
                options := {| duration := None; aspect_ratio := None; width := None;
                              height := None; prompt := "a cat" |} |};
     timers := [0; 1] |}.

(** The same job, run to completion by its second timer. *)
Definition succeededHistory : list Event :=
  processingHistory ++ [ Elapse 4000; TimerFires 1 "2025-10-07T00:00:05.000Z" ].

Definition succeededWorld : World :=
  (step simulatorCfg (TimerFires 1 "2025-10-07T00:00:05.000Z")
     (step simulatorCfg (Elapse 4000) processingWorld).2).2.

(** ** Further notions about the registry and the lifecycle *)

(** Every registry entry points at a live job, and that job carries the key
    as its id. *)
Definition registryInv (w : World) : Prop :=
  ∀ (key : string) (l : Loc),
    mockJobs w !! key = Some l ->
    ∃ job : MockJob, heap w !! l = Some job ∧ id job = key.

(** The job at [l] is [job], in a terminal state, with no timer left. *)
Definition frozen (l : Loc) (job : MockJob) (w : World) : Prop :=
  heap w !! l = Some job ∧ isTerminal (status job) = true ∧ noTimerFor l w.

(** The edges of the lifecycle the simulator walks. *)
Definition transition (s s' : JobStatus) : bool :=
  match s, s' with
  | queued, processing => true
  | processing, succeeded => true
  | queued, canceled => true
  | processing, canceled => true
  | _, _ => false
  end.

(** The reading of the wall clock an event carries, if it reads it. *)
Definition eventNow (ev : Event) : option string :=
  match ev with
  | Generate _ _ now => Some now
  | Cancel _ now => Some now
  | TimerFires _ now => Some now
  | Poll _ => None
  | Elapse _ => None
  end.

(** The job id a request is about. *)
Definition requestFor (ev : Event) : option string :=
  match ev with
  | Generate _ uuid _ => Some uuid
  | Poll id => Some id
  | Cancel id _ => Some id
  | TimerFires _ _ => None
  | Elapse _ => None
  end.

(** The timers of the job created at loop time [c] in place [l] are not due
    before their delays have passed, and the job does not move before they
    are due. *)
Definition notBeforeDue (c : N) (l : Loc) (w : World) : Prop :=
  (∀ t : Timer, t ∈ pending w -> cbJob (callback t) = l -> (c + 1000 <= due t)%N)
  ∧ (∀ t : Timer, t ∈ pending w -> callback t = CompletionCb l -> (c + 5000 <= due t)%N)
  ∧ ∃ job : MockJob,
      heap w !! l = Some job
      ∧ ((clock w < c + 1000)%N -> status job = queued ∨ status job = canceled)
      ∧ ((clock w < c + 5000)%N -> status job ≠ succeeded ∧ result job = None).

(** The finished job the simulator makes of a request: what the second
    timer leaves in the store. *)
Definition finishedJob (options : JobOptions) (uuid created finished : string)
    (hq hc : Timeout) : MockJob :=
  {| base := {| id := uuid; status := succeeded; created_at := created;
                updated_at := finished;
                result := Some {| video_url :=
                  "https://cdn.openai.com/sora/videos/mock-" ++ uuid ++ ".mp4" |};
                error := None; options := options |};
     timers := [hq; hc] |}.

(** The options [app.post] builds from a request whose prompt is [p]. *)
Definition optionsOf (reqBody : JSValue) (p : string) : JobOptions :=
  let o := orEmptyObject reqBody in
  {| prompt := p;
     duration := asNumber (getProp "duration" o);
     aspect_ratio := nonBlank (getProp "aspectRatio" o);
     width := asNumber (getProp "width" o);
     height := asNumber (getProp "height" o) |}.

(** ** The browser client ([web/app.js]) *)

(** [normalizeStatus(status)]: the [switch] compares with [===], so only
    strings can hit a case; anything else comes back as it is. *)
Definition normalizeStatus (status : JSValue) : JSValue :=
  match status with
  | Some (JStr s) =>
      if String.eqb s "in_progress" then Some (JStr "processing")
      else if String.eqb s "running" then Some (JStr "processing")
      else if String.eqb s "completed" then Some (JStr "succeeded")
      else status
  | _ => status
  end.

(** The string a [JobStatus] is on the wire. *)
Definition statusName (s : JobStatus) : string :=
  match s with
  | queued => "queued"
  | processing => "processing"
  | succeeded => "succeeded"
  | failed => "failed"
  | canceled => "canceled"
  end.

(** A request with every optional field, some of them unusable. *)
Definition fullRequest : JSValue :=
  Some (JObj [ ("prompt", JStr "a cat"); ("duration", JNum 8);
               ("aspectRatio", JStr " 16:9 "); ("width", JStr "1280");
               ("height", JNum 720) ]).

(** The job of [succeededWorld], and the job of [processingWorld] once
    canceled. *)
Definition succeededJob : MockJob :=
  finishedJob {| duration := None; aspect_ratio := None; width := None;
                 height := None; prompt := "a cat" |}
    "job-1" "2025-10-07T00:00:00.000Z" "2025-10-07T00:00:05.000Z" 0 1.

Definition canceledJob : MockJob :=
  setStatus canceled "2025-10-07T00:00:02.000Z" processingJob.

(** * Properties of the handlers *)

Lemma validPrompt_string (p : string) :
  p ≠ "" -> validPrompt (Some (JStr p)) = Some p.
Proof.
  intros Hp. unfold validPrompt. simpl.
  destruct (String.eqb_spec p ""); [contradiction | reflexivity].
Qed.

Lemma validPrompt_not_string (v : JSValue) :
  asString v = None -> validPrompt v = None.
Proof.
  intros Hv. unfold validPrompt. rewrite Hv. by destruct (negb (truthy v)).
Qed.

(** C3. A create request with a non-empty string prompt, in simulator mode,
    is answered 202 with a job whose status is [queued], whose id (the UUID
    drawn, which is never empty) is non-empty and whose [created_at] and
    [updated_at] are the same instant. *)
Theorem create_returns_queued_job (cfg : Config) (reqBody : JSValue)
    (p uuid now : string) (w : World) :
  MOCK_MODE cfg = true ->
  getProp "prompt" (orEmptyObject reqBody) = Some (JStr p) ->
  p ≠ "" ->
  uuid ≠ "" ->
  ∃ job w',
    postGenerate cfg reqBody uuid now w = Ret (respond 202 (JobObj (Plain job)), w')
    ∧ status job = queued
    ∧ id job ≠ ""
    ∧ created_at job = updated_at job
    ∧ prompt (options job) = p.
Proof.
  intros Hmock Hprompt Hp Huuid.
  unfold postGenerate. rewrite Hprompt, (validPrompt_string p Hp), Hmock.
  unfold createMockJob. simpl.
  eexists _, _. split; [reflexivity |]. simpl. done.
Qed.

Lemma create_returns_queued_job_witness :
  ∃ job w',
    postGenerate simulatorCfg catRequest "job-1" "2025-10-07T00:00:00.000Z" init
      = Ret (respond 202 (JobObj (Plain job)), w')
    ∧ status job = queued
    ∧ id job ≠ ""
    ∧ created_at job = updated_at job
    ∧ prompt (options job) = "a cat".
Proof.
  apply (create_returns_queued_job simulatorCfg catRequest "a cat");
    [reflexivity | reflexivity | discriminate | discriminate].
Defined.

(** C4. A create request whose prompt is missing or is the empty string is
    answered with the validation error, a 400, whatever the mode; the world,
    and so the registry, is left as it was and nothing is sent upstream. *)
Theorem create_without_prompt_rejected (cfg : Config) (reqBody : JSValue)
    (uuid now : string) (w : World) :
  getProp "prompt" (orEmptyObject reqBody) = None
  ∨ getProp "prompt" (orEmptyObject reqBody) = Some (JStr "") ->
  postGenerate cfg reqBody uuid now w = Ret (promptRequired, w)
  ∧ statusCode promptRequired = 400%Z
  ∧ mockJobs (step cfg (Generate reqBody uuid now) w).2 = mockJobs w.
Proof.
  intros Hprompt.
  assert (postGenerate cfg reqBody uuid now w = Ret (promptRequired, w)) as Heq.
  { unfold postGenerate. by destruct Hprompt as [-> | ->]. }
  split; [exact Heq |]. split; [reflexivity |].
  simpl. by rewrite Heq.
Qed.

Lemma create_without_prompt_rejected_witness :
  postGenerate simulatorCfg (Some (JObj [("prompt", JStr "")])) "job-1" "now" init
    = Ret (promptRequired, init)
  ∧ statusCode promptRequired = 400%Z
  ∧ mockJobs (step simulatorCfg
                (Generate (Some (JObj [("prompt", JStr "")])) "job-1" "now") init).2
    = mockJobs init.
Proof.
  apply (create_without_prompt_rejected simulatorCfg (Some (JObj [("prompt", JStr "")]))).
  right. reflexivity.
Defined.

(** C10. A create request whose prompt is there but is not a string (a
    number, a boolean, an object, ...) gets the very answer a request
    without a prompt gets, and registers nothing. *)
Theorem create_with_non_string_prompt_rejected (cfg : Config) (reqBody : JSValue)
    (v : JSON) (uuid now : string) (w : World) :
  getProp "prompt" (orEmptyObject reqBody) = Some v ->
  asString (Some v) = None ->
  postGenerate cfg reqBody uuid now w = Ret (promptRequired, w)
  ∧ postGenerate cfg reqBody uuid now w = postGenerate cfg (Some (JObj [])) uuid now w
  ∧ mockJobs (step cfg (Generate reqBody uuid now) w).2 = mockJobs w.
Proof.
  intros Hprompt Hv.
  assert (postGenerate cfg reqBody uuid now w = Ret (promptRequired, w)) as Heq.
  { unfold postGenerate. by rewrite Hprompt, (validPrompt_not_string _ Hv). }
  split; [exact Heq |]. split; [by rewrite Heq |].
  simpl. by rewrite Heq.
Qed.

Lemma create_with_non_string_prompt_rejected_witness :
  postGenerate simulatorCfg (Some (JObj [("prompt", JNum 42)])) "job-1" "now" init
    = Ret (promptRequired, init)
  ∧ postGenerate simulatorCfg (Some (JObj [("prompt", JNum 42)])) "job-1" "now" init
    = postGenerate simulatorCfg (Some (JObj [])) "job-1" "now" init
  ∧ mockJobs (step simulatorCfg
                (Generate (Some (JObj [("prompt", JNum 42)])) "job-1" "now") init).2
    = mockJobs init.
Proof.
  apply (create_with_non_string_prompt_rejected simulatorCfg
           (Some (JObj [("prompt", JNum 42)])) (JNum 42));
    reflexivity.
Defined.

(** C6. In simulator mode, for an id the registry does not hold, both the
    get and the cancel handler answer 404 "Job not found", an ordinary
    response, and leave the world unchanged. *)
Theorem unknown_id_not_found (cfg : Config) (id now : string) (w : World) :
  MOCK_MODE cfg = true ->
  mockJobs w !! id = None ->
  getJob cfg id w = Ret (jobNotFound, w)
  ∧ deleteJob cfg id now w = Ret (jobNotFound, w)
  ∧ statusCode jobNotFound = 404%Z.
Proof.
  intros Hmock Hid.
  unfold getJob, deleteJob, cancelMockJob, mockJobsGet. by rewrite Hmock, Hid.
Qed.

Lemma unknown_id_not_found_witness :
  getJob simulatorCfg "nobody" canceledWorld = Ret (jobNotFound, canceledWorld)
  ∧ deleteJob simulatorCfg "nobody" "now" canceledWorld = Ret (jobNotFound, canceledWorld)
  ∧ statusCode jobNotFound = 404%Z.
Proof.
  apply (unknown_id_not_found simulatorCfg "nobody" "now" canceledWorld);
    [reflexivity | vm_compute; reflexivity].
Defined.

(** C5. Canceling a job that is already [succeeded], [failed] or [canceled]
    answers 200 with that job, in the state it was in, and leaves the world,
    hence [updated_at] and every other field of the job, untouched; doing it
    again gives the same answer. *)
Theorem cancel_terminal_is_noop (cfg : Config) (id now now' : string)
    (w : World) (l : Loc) (job : MockJob) :
  MOCK_MODE cfg = true ->
  mockJobsGet id w = Some (l, job) ->
  isTerminal (status job) = true ->
  deleteJob cfg id now w = Ret (respond 200 (JobObj (Stored job)), w)
  ∧ (step cfg (Cancel id now') (step cfg (Cancel id now) w).2) = (step cfg (Cancel id now) w).
Proof.
  intros Hmock Hget Hterm.
  assert (∀ t, deleteJob cfg id t w = Ret (respond 200 (JobObj (Stored job)), w)) as Heq.
  { intros t. unfold deleteJob, cancelMockJob. by rewrite Hmock, Hget, Hterm. }
  split; [apply Heq |].
  simpl. rewrite (Heq now). simpl. by rewrite (Heq now').
Qed.

Lemma cancel_terminal_is_noop_witness :
  ∃ job,
    deleteJob simulatorCfg "job-1" "later" canceledWorld
      = Ret (respond 200 (JobObj (Stored job)), canceledWorld)
    ∧ step simulatorCfg (Cancel "job-1" "again")
        (step simulatorCfg (Cancel "job-1" "later") canceledWorld).2
      = step simulatorCfg (Cancel "job-1" "later") canceledWorld.
Proof.
  eexists.
  eapply (cancel_terminal_is_noop simulatorCfg "job-1" "later" "again" canceledWorld 0);
    [reflexivity | vm_compute; reflexivity | reflexivity].
Defined.

(** What every path but one hands to [res.json] is a projection: it has no
    key outside the public ones. *)
Lemma plain_job_keys_public (job : Job) :
  jobKeys (Plain job) ⊆ projectionKeys.
Proof.
  intros key. rewrite !list_elem_of_In.
  unfold jobKeys, projectionKeys, optionalKey.
  destruct (result job), (error job); simpl; tauto.
Qed.

Lemma stored_job_keys_expose_timers (job : MockJob) :
  "timers" ∈ jobKeys (Stored job) ∧ "timers" ∉ projectionKeys.
Proof.
  split.
  - unfold jobKeys. rewrite list_elem_of_In. simpl. tauto.
  - unfold projectionKeys. intros Hin.
    repeat (apply elem_of_cons in Hin as [Hin | Hin]; [discriminate Hin |]).
    by apply elem_of_nil in Hin.
Qed.

(** C2, at the input where it fails: after a job was created and canceled,
    canceling it once more answers 200 with the stored object itself, not
    its projection, so the body carries the [timers] key, which is not one
    of the public keys. *)
Theorem cancel_terminal_exposes_timers :
  ∃ job : MockJob,
    (step simulatorCfg (Cancel "job-1" "2025-10-07T00:00:02.000Z") canceledWorld).1
      = Some (respond 200 (JobObj (Stored job)))
    ∧ status job = canceled
    ∧ timers job = [0; 1]
    ∧ "timers" ∈ bodyKeys (JsonBody (JobObj (Stored job)))
    ∧ "timers" ∉ projectionKeys.
Proof.
  eexists. split; [vm_compute; reflexivity |].
  split; [reflexivity |]. split; [reflexivity |].
  apply stored_job_keys_expose_timers.
Qed.

(** The claim C7 read to the letter fails: with no credential and no prompt,
    create answers with the validation error, not the configuration error. *)
Lemma keyless_create_without_prompt_is_validation_error :
  MOCK_MODE keylessCfg = false
  ∧ SORA_API_KEY keylessCfg = ""
  ∧ postGenerate keylessCfg (Some (JObj [])) "job-1" "now" init = Ret (promptRequired, init)
  ∧ postGenerate keylessCfg (Some (JObj [])) "job-1" "now" init ≠ Ret (keyNotConfigured, init).
Proof.
  repeat split. vm_compute. discriminate.
Qed.

(** C7, amended. In proxy mode without a credential, get and cancel answer
    with the configuration error (a 500), and so does create once the prompt
    has passed validation; a create whose prompt is invalid is answered with
    the validation error first. In every case the handler answers without
    sending anything upstream. *)
Theorem missing_key_is_configuration_error (cfg : Config) (reqBody : JSValue)
    (id uuid now : string) (w : World) (net : FetchRequest -> FetchOutcome) :
  MOCK_MODE cfg = false ->
  SORA_API_KEY cfg = "" ->
  postGenerate cfg reqBody uuid now w
    = Ret (match validPrompt (getProp "prompt" (orEmptyObject reqBody)) with
           | Some _ => keyNotConfigured
           | None => promptRequired
           end, w)
  ∧ getJob cfg id w = Ret (keyNotConfigured, w)
  ∧ deleteJob cfg id now w = Ret (keyNotConfigured, w)
  ∧ statusCode keyNotConfigured = 500%Z
  ∧ requests net (postGenerate cfg reqBody uuid now w) = []
  ∧ requests net (getJob cfg id w) = []
  ∧ requests net (deleteJob cfg id now w) = [].
Proof.
  intros Hmode Hkey.
  assert (postGenerate cfg reqBody uuid now w
          = Ret (match validPrompt (getProp "prompt" (orEmptyObject reqBody)) with
                 | Some _ => keyNotConfigured
                 | None => promptRequired
                 end, w)) as Hpost.
  { unfold postGenerate.
    destruct (validPrompt (getProp "prompt" (orEmptyObject reqBody))); [| reflexivity].
    by rewrite Hmode, Hkey. }
  assert (getJob cfg id w = Ret (keyNotConfigured, w)) as Hget.
  { unfold getJob. by rewrite Hmode, Hkey. }
  assert (deleteJob cfg id now w = Ret (keyNotConfigured, w)) as Hdel.
  { unfold deleteJob. by rewrite Hmode, Hkey. }
  rewrite Hpost, Hget, Hdel. done.
Qed.

Lemma missing_key_is_configuration_error_witness :
  postGenerate keylessCfg catRequest "job-1" "now" init = Ret (keyNotConfigured, init)
  ∧ getJob keylessCfg "job-1" init = Ret (keyNotConfigured, init)
  ∧ deleteJob keylessCfg "job-1" "now" init = Ret (keyNotConfigured, init)
  ∧ statusCode keyNotConfigured = 500%Z
  ∧ requests badGateway (postGenerate keylessCfg catRequest "job-1" "now" init) = []
  ∧ requests badGateway (getJob keylessCfg "job-1" init) = []
  ∧ requests badGateway (deleteJob keylessCfg "job-1" "now" init) = [].
Proof.
  apply (missing_key_is_configuration_error keylessCfg catRequest "job-1" "job-1" "now"
           init badGateway); reflexivity.
Defined.

(** The claim C8 read to the letter fails: an upstream 502 whose body is not
    JSON is not relayed; the client gets the 500 of a failed attempt. *)
Lemma proxy_cancel_unparsable_body_not_relayed :
  ok 502 = false
  ∧ (outcome badGateway (deleteJob proxyCfg "job-1" "now" init)).1
    = respond 500 (ErrorObj "Failed to cancel video generation job")
  ∧ statusCode (outcome badGateway (deleteJob proxyCfg "job-1" "now" init)).1 ≠ 502%Z.
Proof.
  repeat split. vm_compute. discriminate.
Qed.

(** C8, amended. In proxy mode with a credential, cancel sends one
    authenticated DELETE. An upstream 204 is answered 204 with no body,
    whatever came with it; any other upstream answer whose body parses as
    JSON is relayed, under the upstream status if that is not a success and
    under 200 if it is; and when the body does not parse, or the request
    itself fails, the answer is the 500 of a failed attempt. *)
Theorem proxy_cancel_relay (cfg : Config) (id now : string) (w : World)
    (net : FetchRequest -> FetchOutcome) :
  MOCK_MODE cfg = false ->
  SORA_API_KEY cfg ≠ "" ->
  let rq := {| url := SORA_API_BASE_URL cfg ++ "/" ++ id; method := "DELETE";
               headers := [bearer cfg]; payload := None |} in
  let answer := outcome net (deleteJob cfg id now w) in
  requests net (deleteJob cfg id now w) = [rq]
  ∧ (∀ json, net rq = Resolved 204 json ->
       answer = ({| statusCode := 204; body := NoBody |}, w))
  ∧ (∀ status data, net rq = Resolved status (Some data) -> status ≠ 204%Z ->
       ok status = false -> answer = (respond status (Data data), w))
  ∧ (∀ status data, net rq = Resolved status (Some data) -> status ≠ 204%Z ->
       ok status = true -> answer = (respond 200 (Data data), w))
  ∧ (∀ status, net rq = Resolved status None -> status ≠ 204%Z ->
       answer = (respond 500 (ErrorObj "Failed to cancel video generation job"), w))
  ∧ (net rq = Rejected ->
       answer = (respond 500 (ErrorObj "Failed to cancel video generation job"), w)).
Proof.
  intros Hmode Hkey rq answer. subst rq answer.
  unfold deleteJob. rewrite Hmode.
  destruct (String.eqb_spec (SORA_API_KEY cfg) ""); [contradiction |].
  simpl.
  destruct (net _) as [| status json] eqn:Hnet.
  { repeat split; intros; congruence. }
  destruct (Z.eqb_spec status 204) as [-> | Hne].
  { repeat split; intros; congruence. }
  destruct json as [data |]; [destruct (ok status) eqn:Hok |];
    simpl; repeat split; intros; congruence.
Qed.

Lemma proxy_cancel_relay_witness :
  outcome (fun _ => Resolved 404 (Some (JObj [("error", JStr "no such video")])))
    (deleteJob proxyCfg "job-1" "now" init)
  = (respond 404 (Data (JObj [("error", JStr "no such video")])), init)
  ∧ outcome (fun _ => Resolved 204 None) (deleteJob proxyCfg "job-1" "now" init)
    = ({| statusCode := 204; body := NoBody |}, init).
Proof.
  split.
  - apply (proxy_cancel_relay proxyCfg "job-1" "now" init
             (fun _ => Resolved 404 (Some (JObj [("error", JStr "no such video")]))));
      [reflexivity | discriminate | reflexivity | discriminate | reflexivity].
  - apply (proxy_cancel_relay proxyCfg "job-1" "now" init (fun _ => Resolved 204 None)
             eq_refl) with (json := None); [discriminate | reflexivity].
Defined.

(** * The simulator over time *)

Section WorldLemmas.

Lemma heap_modifyJob (l l' : Loc) (f : MockJob -> MockJob) (w : World) :
  heap (modifyJob l f w) !! l'
  = if decide (l = l') then f <$> heap w !! l' else heap w !! l'.
Proof.
  unfold modifyJob.
  destruct (heap w !! l) as [job |] eqn:Hl; simpl.
  - case_decide as Heq.
    + subst l'. rewrite list_lookup_insert_eq by eauto using lookup_lt_Some.
      by rewrite Hl.
    + by apply list_lookup_insert_ne.
  - case_decide as Heq; [subst l'; by rewrite Hl | done].
Qed.

Lemma length_heap_modifyJob (l : Loc) (f : MockJob -> MockJob) (w : World) :
  length (heap (modifyJob l f w)) = length (heap w).
Proof.
  unfold modifyJob. destruct (heap w !! l); simpl; [apply length_insert | done].
Qed.

Lemma rest_modifyJob (l : Loc) (f : MockJob -> MockJob) (w : World) :
  pending (modifyJob l f w) = pending w
  ∧ mockJobs (modifyJob l f w) = mockJobs w
  ∧ nextTimer (modifyJob l f w) = nextTimer w.
Proof. unfold modifyJob. by destruct (heap w !! l). Qed.

Lemma elem_of_pending_clearTimeout (h : Timeout) (w : World) (t : Timer) :
  t ∈ pending (clearTimeout h w) ↔ t ∈ pending w ∧ handle t ≠ h.
Proof.
  unfold clearTimeout. simpl. rewrite list_elem_of_filter.
  unfold stillPending. rewrite negb_true_iff, Nat.eqb_neq. tauto.
Qed.

Lemma findTimer_Some (h : Timeout) (w : World) (t : Timer) :
  findTimer h w = Some t -> t ∈ pending w ∧ handle t = h.
Proof.
  unfold findTimer. intros Hfind. apply find_some in Hfind as [Hin Heq].
  split; [by apply list_elem_of_In | by apply Nat.eqb_eq].
Qed.

Lemma dueOrder_fire (h : Timeout) (now : string) (w : World) (t t' : Timer) :
  dueOrder (TimerFires h now) w = true ->
  findTimer h w = Some t ->
  t' ∈ pending w ->
  (due t <= due t')%N.
Proof.
  simpl. intros Hord Hfind Hin. rewrite Hfind in Hord.
  rewrite forallb_forall in Hord. apply N.leb_le, Hord. by apply list_elem_of_In.
Qed.

Lemma createMockJob_world (options : JobOptions) (uuid now : string) (w : World) :
  (createMockJob options uuid now w).2
  = {| heap := heap w
                 ++ [ {| base := {| id := uuid; status := queued; created_at := now;
                                    updated_at := now; result := None; error := None;
                                    options := options |};
                         timers := [nextTimer w; S (nextTimer w)] |} ];
       mockJobs := <[uuid := length (heap w)]> (mockJobs w);
       pending := pending w
                    ++ [ {| handle := nextTimer w; due := (clock w + 1000)%N;
                            callback := QueueCb (length (heap w)) |};
                         {| handle := S (nextTimer w); due := (clock w + 5000)%N;
                            callback := CompletionCb (length (heap w)) |} ];
       nextTimer := S (S (nextTimer w));
       clock := clock w |}.
Proof.
  unfold createMockJob, alloc, setTimeout, modifyJob, registerJob. simpl.
  rewrite list_lookup_middle by done. simpl.
  rewrite insert_app_r_alt by done. rewrite Nat.sub_diag. simpl.
  by rewrite <- app_assoc.
Qed.

Lemma step_Move (cfg : Config) (ev : Event) (w : World) :
  MOCK_MODE cfg = true -> Move w ev (step cfg ev w).2.
Proof.
  intros Hmock. destruct ev as [reqBody uuid now | id | id now | h now | ms]; simpl.
  - unfold postGenerate. rewrite Hmock.
    destruct (validPrompt _) as [p |]; [| constructor].
    match goal with
    | |- context [createMockJob ?o uuid now w] =>
        pose proof (MoveCreate w reqBody uuid now o) as Hmove;
        destruct (createMockJob o uuid now w) as [job w']
    end.
    exact Hmove.
  - unfold getJob. rewrite Hmock. destruct (mockJobsGet id w) as [[l job] |]; constructor.
  - unfold deleteJob, cancelMockJob. rewrite Hmock.
    destruct (mockJobsGet id w) as [[l job] |] eqn:Hget; simpl; [| constructor].
    destruct (isTerminal (status job)) eqn:Hterm; simpl; [constructor |].
    by eapply MoveCancel.
  - unfold fireTimer. destruct (findTimer h w) as [t |] eqn:Hfind; [| constructor].
    destruct (N.leb_spec (due t) (clock w)); [| constructor].
    by apply MoveFire.
  - constructor.
Qed.

Lemma run_invariant (cfg : Config) (allowed : Event -> World -> bool)
    (P : World -> Prop) :
  (∀ ev w, P w -> allowed ev w = true -> P (step cfg ev w).2) ->
  ∀ evs w w', P w -> run cfg allowed evs w = Some w' -> P w'.
Proof.
  intros Hstep evs. induction evs as [| ev rest IH]; intros w w' HP Hrun; simpl in Hrun.
  - by injection Hrun as <-.
  - destruct (allowed ev w) eqn:Hallowed; [| discriminate].
    eapply IH; [| exact Hrun]. by apply Hstep.
Qed.

End WorldLemmas.

Section Invariants.

Implicit Types (w : World) (l : Loc) (job : MockJob) (t : Timer).

Lemma handleOf_inj (cb cb' : Callback) : handleOf cb = handleOf cb' -> cb = cb'.
Proof. destruct cb, cb'; simpl; intros Heq; f_equal; lia. Qed.

Lemma handleOf_owner (cb : Callback) l :
  handleOf cb = 2 * l ∨ handleOf cb = 2 * l + 1 ↔ cbJob cb = l.
Proof. destruct cb; simpl; lia. Qed.

Lemma mockJobsGet_Some (id : string) w l job :
  mockJobsGet id w = Some (l, job) ↔ mockJobs w !! id = Some l ∧ heap w !! l = Some job.
Proof.
  unfold mockJobsGet. split.
  - destruct (mockJobs w !! id) as [l' |]; [| discriminate].
    destruct (heap w !! l') as [job' |] eqn:Hl'; [| discriminate].
    by intros [= <- <-].
  - intros [-> ->]. done.
Qed.

(** The loop of [cancelMockJob] over [job.timers]. *)
Lemma clearTimeouts_spec (hs : list Timeout) w :
  let w' := foldl (fun w timer => clearTimeout timer w) w hs in
  heap w' = heap w ∧ mockJobs w' = mockJobs w ∧ nextTimer w' = nextTimer w
  ∧ ∀ t, t ∈ pending w' ↔ t ∈ pending w ∧ handle t ∉ hs.
Proof.
  revert w. induction hs as [| h hs IH]; intros w; simpl.
  - do 3 (split; [done |]). intros t. split; [| tauto].
    intros Hin. split; [done | apply not_elem_of_nil].
  - destruct (IH (clearTimeout h w)) as (Hheap & Hjobs & Hnext & Hpending).
    do 3 (split; [done |]). intros t.
    rewrite Hpending, elem_of_pending_clearTimeout, not_elem_of_cons. tauto.
Qed.

(** Once the timers of the job at [l] are cleared, the table holds the
    timers of the other jobs, and those only. *)
Lemma pending_after_clearing w l job t :
  storeInv w ->
  heap w !! l = Some job ->
  t ∈ pending (foldl (fun w timer => clearTimeout timer w) w (timers job))
  ↔ t ∈ pending w ∧ cbJob (callback t) ≠ l.
Proof.
  intros Hinv Hl.
  destruct (clearTimeouts_spec (timers job) w) as (_ & _ & _ & ->).
  rewrite (inv_timers w Hinv l job Hl).
  split; intros [Hin Hne]; (split; [done |]).
  - intros Hown. apply Hne. apply (handleOf_owner (callback t)) in Hown.
    destruct (inv_pending w Hinv t Hin) as [_ ->].
    rewrite !elem_of_cons. tauto.
  - intros Hhandle. apply Hne, handleOf_owner.
    destruct (inv_pending w Hinv t Hin) as [_ <-].
    rewrite !elem_of_cons in Hhandle. destruct Hhandle as [? | [? | Hnil]]; [tauto | tauto |].
    by apply elem_of_nil in Hnil.
Qed.

(** When timer [t] has run, the table holds the timers with another
    callback, and those only. *)
Lemma pending_after_firing w t t' :
  storeInv w ->
  t ∈ pending w ->
  t' ∈ pending (clearTimeout (handle t) w)
  ↔ t' ∈ pending w ∧ callback t' ≠ callback t.
Proof.
  intros Hinv Hin. rewrite elem_of_pending_clearTimeout.
  split; intros [Hin' Hne]; (split; [done |]).
  - intros Heq. apply Hne.
    destruct (inv_pending w Hinv t Hin) as [_ ->].
    destruct (inv_pending w Hinv t' Hin') as [_ ->]. by rewrite Heq.
  - intros Heq. apply Hne, handleOf_inj.
    destruct (inv_pending w Hinv t Hin) as [_ <-].
    by destruct (inv_pending w Hinv t' Hin') as [_ <-].
Qed.

Lemma storeInv_init : storeInv init.
Proof.
  split; simpl.
  - done.
  - intros l job Hl. by rewrite lookup_nil in Hl.
  - intros t Hin. by apply elem_of_nil in Hin.
Qed.

Lemma storeInv_clearTimeout (h : Timeout) w : storeInv w -> storeInv (clearTimeout h w).
Proof.
  intros [Hnext Htimers Hpending]. split; simpl; [done | done |].
  intros t Hin. apply list_elem_of_filter in Hin as [_ Hin]. by apply Hpending.
Qed.

Lemma storeInv_modifyJob l (f : MockJob -> MockJob) w :
  (∀ job, timers (f job) = timers job) ->
  storeInv w -> storeInv (modifyJob l f w).
Proof.
  intros Hf [Hnext Htimers Hpending].
  destruct (rest_modifyJob l f w) as (Hp & _ & Hn).
  split; rewrite ?Hp, ?Hn, ?length_heap_modifyJob; [done | | done].
  intros l' job Hl'. rewrite heap_modifyJob in Hl'. case_decide as Heq.
  - destruct (heap w !! l') as [job' |] eqn:Hjob'; [| discriminate].
    injection Hl' as <-. rewrite Hf. by apply Htimers.
  - by apply Htimers.
Qed.

Lemma storeInv_runCallback (cb : Callback) (now : string) w :
  storeInv w -> storeInv (runCallback cb now w).
Proof. destruct cb; simpl; by apply storeInv_modifyJob. Qed.

Lemma storeInv_Move w (ev : Event) w' : storeInv w -> Move w ev w' -> storeInv w'.
Proof.
  intros Hinv Hmove.
  destruct Hmove as [ev | reqBody uuid now options | id now l job Hget Hterm
                     | h now t Hfind Hdue | ms].
  - done.
  - destruct Hinv as [Hnext Htimers Hpending].
    rewrite createMockJob_world. split; simpl.
    + rewrite length_app. simpl. lia.
    + intros l job Hl. apply lookup_snoc_Some in Hl as [[_ Hl] | [-> <-]].
      * by apply Htimers.
      * simpl. rewrite Hnext. f_equal. f_equal. lia.
    + intros t Hin. rewrite length_app. simpl.
      apply elem_of_app in Hin as [Hin | Hin].
      * destruct (Hpending t Hin). split; [lia | done].
      * rewrite !elem_of_cons in Hin. destruct Hin as [-> | [-> | Hnil]]; simpl.
        -- split; lia.
        -- split; lia.
        -- by apply elem_of_nil in Hnil.
  - apply storeInv_modifyJob; [done |].
    generalize (timers job). intros hs. revert w Hinv Hget.
    induction hs as [| h hs IH]; intros w Hinv Hget; simpl; [done |].
    apply IH; [by apply storeInv_clearTimeout | done].
  - by apply storeInv_runCallback, storeInv_clearTimeout.
  - destruct Hinv. by split.
Qed.

Lemma storeInv_run (cfg : Config) (allowed : Event -> World -> bool)
    (evs : list Event) w :
  MOCK_MODE cfg = true -> run cfg allowed evs init = Some w -> storeInv w.
Proof.
  intros Hmock. apply (run_invariant cfg allowed storeInv); [| apply storeInv_init].
  intros ev w0 Hinv _. eapply storeInv_Move; [done | by apply step_Move].
Qed.

End Invariants.

Section Lifecycle.

Implicit Types (w : World) (l : Loc) (job : MockJob) (t : Timer).

(** [jobOk] for the job at [l] looks at the timers of that job only. *)
Lemma jobOk_frame w w' l job :
  (∀ t, cbJob (callback t) = l -> (t ∈ pending w' ↔ t ∈ pending w)) ->
  jobOk w l job -> jobOk w' l job.
Proof.
  intros Hsame [Herr Hst]. split; [done |].
  destruct (status job); [| | | done |].
  - destruct Hst as [Hres Hq]. split; [done |]. intros tc Hin Hcb.
    apply Hsame in Hin; [| by rewrite Hcb].
    destruct (Hq tc Hin Hcb) as (tq & Hin' & Hcb' & Hlt).
    exists tq. split; [| done]. apply Hsame; [by rewrite Hcb' | done].
  - destruct Hst as [Hres Hq]. split; [done |]. intros t Hin Hcb.
    apply (Hq t); [| done]. apply Hsame; [by rewrite Hcb | done].
  - destruct Hst as [Hres Hq]. split; [done |]. intros t Hin Hcb.
    apply (Hq t); [| done]. by apply Hsame.
  - destruct Hst as [Hres Hq]. split; [done |]. intros t Hin Hcb.
    apply (Hq t); [| done]. by apply Hsame.
Qed.

Lemma jobOk_canceled w w' l job (now : string) :
  jobOk w l job ->
  isTerminal (status job) = false ->
  noTimerFor l w' ->
  jobOk w' l (setStatus canceled now job).
Proof.
  intros [Herr Hst] Hterm Hnone. split; [done |]. simpl.
  split; [| done].
  destruct (status job); try discriminate; by destruct Hst.
Qed.

Lemma jobOk_queue_fired w w' l job t (now : string) :
  jobOk w l job ->
  t ∈ pending w ->
  callback t = QueueCb l ->
  (∀ t', t' ∈ pending w' ↔ t' ∈ pending w ∧ callback t' ≠ QueueCb l) ->
  jobOk w' l (setStatus processing now job).
Proof.
  intros [Herr Hst] Hin Hcb Hpending. split; [done |]. simpl.
  destruct (status job); [| | | done |].
  - destruct Hst as [Hres _]. split; [done |].
    intros t' Hin'. by apply Hpending in Hin' as [_ Hne].
  - destruct Hst as [_ Hq]. by destruct (Hq t Hin).
  - destruct Hst as [_ Hq]. destruct (Hq t Hin). by rewrite Hcb.
  - destruct Hst as [_ Hq]. destruct (Hq t Hin). by rewrite Hcb.
Qed.

Lemma jobOk_completion_fired w w' l job t (now : string) (r : JobResult) :
  jobOk w l job ->
  t ∈ pending w ->
  callback t = CompletionCb l ->
  (∀ t', t' ∈ pending w -> (due t <= due t')%N) ->
  (∀ t', t' ∈ pending w' ↔ t' ∈ pending w ∧ callback t' ≠ CompletionCb l) ->
  jobOk w' l (setResult r (setStatus succeeded now job)).
Proof.
  intros [Herr Hst] Hin Hcb Hfirst Hpending. split; [done |]. simpl.
  destruct (status job); [| | | done |].
  - destruct Hst as [_ Hq]. destruct (Hq t Hin Hcb) as (tq & Hinq & _ & Hlt).
    specialize (Hfirst tq Hinq). lia.
  - destruct Hst as [_ Hq]. split; [done |].
    intros t' Hin' Hl. apply Hpending in Hin' as [Hin' Hne].
    destruct (callback t') as [l' | l'] eqn:Hcb'; simpl in Hl; subst l'.
    + by apply (Hq t' Hin').
    + done.
  - destruct Hst as [_ Hq]. destruct (Hq t Hin). by rewrite Hcb.
  - destruct Hst as [_ Hq]. destruct (Hq t Hin). by rewrite Hcb.
Qed.

Lemma lifeInv_init : lifeInv init.
Proof. intros l job Hl. simpl in Hl. by rewrite lookup_nil in Hl. Qed.

Lemma lifeInv_Move w (ev : Event) w' :
  storeInv w -> lifeInv w -> dueOrder ev w = true -> Move w ev w' -> lifeInv w'.
Proof.
  intros Hinv Hlife Horder Hmove.
  destruct Hmove as [ev | reqBody uuid now options | id now l0 job0 Hget Hterm
                     | h now t Hfind Hdue | ms].
  - done.
  - rewrite createMockJob_world. intros l job Hl. simpl in Hl.
    apply lookup_snoc_Some in Hl as [[Hlt Hl] | [-> <-]].
    + apply (jobOk_frame w); [| by apply Hlife].
      intros t Hcb. simpl. rewrite elem_of_app, !elem_of_cons, elem_of_nil.
      split; [| tauto].
      intros [Hin | [-> | [-> | []]]]; [done | simpl in Hcb; lia | simpl in Hcb; lia].
    + split; [done |]. simpl. split; [done |].
      intros tc Hin Hcb.
      rewrite elem_of_app, !elem_of_cons, elem_of_nil in Hin.
      destruct Hin as [Hin | [-> | [-> | []]]].
      * destruct (inv_pending w Hinv tc Hin) as [Hlt _].
        rewrite Hcb in Hlt. simpl in Hlt. lia.
      * discriminate Hcb.
      * exists {| handle := nextTimer w; due := (clock w + 1000)%N;
                  callback := QueueCb (length (heap w)) |}.
        split; [| split; [reflexivity | simpl; lia]].
        rewrite elem_of_app, !elem_of_cons. tauto.
  - apply mockJobsGet_Some in Hget as [_ Hl0].
    destruct (clearTimeouts_spec (timers job0) w) as (Hheap & _ & _ & _).
    destruct (rest_modifyJob l0 (setStatus canceled now)
                (foldl (fun w timer => clearTimeout timer w) w (timers job0)))
      as (Hpending & _ & _).
    intros l job Hl. rewrite heap_modifyJob, Hheap in Hl. case_decide as Heq.
    + subst l. rewrite Hl0 in Hl. injection Hl as <-.
      apply (jobOk_canceled w); [by apply Hlife | done |].
      intros t Hin. rewrite Hpending in Hin.
      by apply (pending_after_clearing w l0 job0) in Hin as [_ Hne].
    + apply (jobOk_frame w); [| by apply Hlife].
      intros t Hcb. rewrite Hpending, (pending_after_clearing w l0 job0) by done.
      rewrite Hcb. split; [tauto | intros Hin; split; [done | congruence]].
  - pose proof (findTimer_Some h w t Hfind) as [Hin Hh]. subst h.
    assert (∀ t', t' ∈ pending w -> (due t <= due t')%N) as Hfirst.
    { intros t' Hin'. by eapply dueOrder_fire. }
    assert (∀ f t', t' ∈ pending (modifyJob (cbJob (callback t)) f (clearTimeout (handle t) w))
                    ↔ t' ∈ pending w ∧ callback t' ≠ callback t) as Hpending.
    { intros f t'.
      destruct (rest_modifyJob (cbJob (callback t)) f (clearTimeout (handle t) w)) as (-> & _).
      by apply pending_after_firing. }
    intros l job Hl.
    assert (∃ f, runCallback (callback t) now (clearTimeout (handle t) w)
                 = modifyJob (cbJob (callback t)) f (clearTimeout (handle t) w)) as [f Hrun].
    { destruct (callback t); simpl; eauto. }
    destruct (decide (cbJob (callback t) = l)) as [Heq | Hne].
    + destruct (callback t) as [l0 | l0] eqn:Hcb; simpl in Heq, Hl; subst l0;
        rewrite heap_modifyJob in Hl; rewrite decide_True in Hl by done;
        simpl in Hl; destruct (heap w !! l) as [job0 |] eqn:Hl0; try discriminate;
        injection Hl as <-.
      * eapply (jobOk_queue_fired w); [by apply Hlife | done | done |].
        intros t'. apply (Hpending (setStatus processing now)).
      * eapply (jobOk_completion_fired w); [by apply Hlife | done | done | done |].
        intros t'. apply (Hpending (fun job => setResult {| video_url := mockVideoUrl job |}
                                             (setStatus succeeded now job))).
    + rewrite Hrun in Hl |- *. rewrite heap_modifyJob in Hl.
      rewrite decide_False in Hl by done. simpl in Hl.
      apply (jobOk_frame w); [| by apply Hlife].
      intros t' Hcb'. rewrite Hpending. split; [tauto |].
      intros Hin'. split; [done |]. intros Heq. apply Hne. by rewrite <- Heq.
  - intros l job Hl. apply (jobOk_frame w); [done | by apply Hlife].
Qed.

Lemma invariants_run (cfg : Config) (evs : list Event) w :
  MOCK_MODE cfg = true ->
  run cfg dueOrder evs init = Some w ->
  storeInv w ∧ lifeInv w.
Proof.
  intros Hmock.
  apply (run_invariant cfg dueOrder (fun w => storeInv w ∧ lifeInv w));
    [| split; [apply storeInv_init | apply lifeInv_init]].
  intros ev w0 [Hinv Hlife] Horder.
  pose proof (step_Move cfg ev w0 Hmock) as Hmove.
  split; [by eapply storeInv_Move | by eapply lifeInv_Move].
Qed.

(** A canceled job with no timer left stays as it is, whatever happens
    next, as long as no id is handed out twice. *)
Lemma settled_Move (id : string) l w (ev : Event) w' :
  settled id l w -> freshIds ev w = true -> Move w ev w' -> settled id l w'.
Proof.
  intros Hset Hfresh Hmove.
  pose proof Hset as (Hid & (job & Hl & Hst) & Hnone).
  destruct Hmove as [ev | reqBody uuid now options | id' now l0 job0 Hget Hterm
                     | h now t Hfind Hdue | ms].
  - done.
  - rewrite createMockJob_world. pose proof (lookup_lt_Some _ _ _ Hl) as Hlt.
    simpl in Hfresh. split; [| split]; simpl.
    + rewrite lookup_insert_ne; [done |]. intros ->. by rewrite Hid in Hfresh.
    + exists job. by rewrite lookup_app_l.
    + intros t Hin. simpl in Hin.
      rewrite elem_of_app, !elem_of_cons, elem_of_nil in Hin.
      destruct Hin as [Hin | [-> | [-> | []]]]; [by apply Hnone | simpl; lia | simpl; lia].
  - apply mockJobsGet_Some in Hget as [_ Hl0].
    destruct (clearTimeouts_spec (timers job0) w) as (Hheap & Hjobs & _ & Hpend).
    destruct (rest_modifyJob l0 (setStatus canceled now)
                (foldl (fun w timer => clearTimeout timer w) w (timers job0)))
      as (Hpending & Hjobs' & _).
    assert (l0 ≠ l) as Hne.
    { intros ->. rewrite Hl in Hl0. injection Hl0 as <-. by rewrite Hst in Hterm. }
    split; [| split].
    + by rewrite Hjobs', Hjobs.
    + exists job. by rewrite heap_modifyJob, decide_False, Hheap.
    + intros t Hin. rewrite Hpending in Hin. apply Hpend in Hin as [Hin _]. by apply Hnone.
  - pose proof (findTimer_Some h w t Hfind) as [Hin Hh].
    assert (∃ f, runCallback (callback t) now (clearTimeout h w)
                 = modifyJob (cbJob (callback t)) f (clearTimeout h w)) as [f ->].
    { destruct (callback t); simpl; eauto. }
    destruct (rest_modifyJob (cbJob (callback t)) f (clearTimeout h w))
      as (Hpending & Hjobs' & _).
    split; [| split].
    + by rewrite Hjobs'.
    + exists job. rewrite heap_modifyJob, decide_False; [done |]. by apply Hnone.
    + intros t' Hin'. rewrite Hpending in Hin'.
      apply elem_of_pending_clearTimeout in Hin' as [Hin' _]. by apply Hnone.
  - done.
Qed.

Lemma settled_run (cfg : Config) (id : string) l (evs : list Event) w w' :
  MOCK_MODE cfg = true ->
  settled id l w -> run cfg freshIds evs w = Some w' -> settled id l w'.
Proof.
  intros Hmock. apply (run_invariant cfg freshIds (settled id l)).
  intros ev w0 Hset Hfresh. eapply settled_Move; [done | done | by apply step_Move].
Qed.

Lemma settled_observe (cfg : Config) (id : string) l w :
  MOCK_MODE cfg = true ->
  settled id l w ->
  ∃ shown, observe cfg id w = Some shown
           ∧ statusCode shown = 200%Z ∧ shownStatus shown = Some canceled.
Proof.
  intros Hmock (Hid & (job & Hl & Hst) & _).
  unfold observe. simpl. unfold getJob. rewrite Hmock.
  rewrite (proj2 (mockJobsGet_Some id w l job)) by done. simpl.
  eexists. split; [reflexivity |]. split; [done |].
  unfold shownStatus. simpl. by rewrite Hst.
Qed.

End Lifecycle.

(** * Cancellation and the lifecycle invariant *)

(** C1. Canceling a job that is [queued] or [processing] answers 200 with
    status [canceled] and takes both of its scheduled transitions out of the
    timer table (the other jobs keep theirs); from then on, whatever requests
    come in and whichever timers run, a poll of that job shows [canceled],
    hence never [processing] nor [succeeded]. Histories are those in which
    [randomUUID()] never returns an id twice. *)
Theorem cancel_prevents_scheduled_transitions (cfg : Config) (history : list Event)
    (w : World) (id now : string) (l : Loc) (job : MockJob) :
  MOCK_MODE cfg = true ->
  run cfg freshIds history init = Some w ->
  mockJobsGet id w = Some (l, job) ->
  status job = queued ∨ status job = processing ->
  ∃ answer w1,
    step cfg (Cancel id now) w = (Some answer, w1)
    ∧ statusCode answer = 200%Z
    ∧ shownStatus answer = Some canceled
    ∧ (∀ t, t ∈ pending w1 ↔ t ∈ pending w ∧ cbJob (callback t) ≠ l)
    ∧ (∀ t, t ∈ pending w1 -> handle t ∉ timers job)
    ∧ ∀ later w2, run cfg freshIds later w1 = Some w2 ->
        ∃ shown, observe cfg id w2 = Some shown
                 ∧ statusCode shown = 200%Z
                 ∧ shownStatus shown = Some canceled.
Proof.
  intros Hmock Hrun Hget Hactive.
  pose proof (storeInv_run cfg freshIds history w Hmock Hrun) as Hinv.
  assert (isTerminal (status job) = false) as Hterm.
  { by destruct Hactive as [-> | ->]. }
  pose proof Hget as [Hid Hl]%mockJobsGet_Some.
  set (wc := foldl (fun w timer => clearTimeout timer w) w (timers job)).
  destruct (clearTimeouts_spec (timers job) w) as (Hheap & Hjobs & _ & Hcleared).
  fold wc in Hheap, Hjobs, Hcleared.
  destruct (rest_modifyJob l (setStatus canceled now) wc) as (Hpending & Hjobs' & _).
  exists (respond 200 (JobObj (Plain (serializeJob (setStatus canceled now job))))),
         (modifyJob l (setStatus canceled now) wc).
  split; [| split; [done | split; [done | split; [| split]]]].
  - simpl. unfold deleteJob, cancelMockJob. by rewrite Hmock, Hget, Hterm.
  - intros t. rewrite Hpending. by apply pending_after_clearing.
  - intros t Hin. rewrite Hpending in Hin. by apply Hcleared in Hin as [_ Hout].
  - intros later w2 Hlater.
    apply (settled_observe cfg id l w2 Hmock).
    apply (settled_run cfg id l later (modifyJob l (setStatus canceled now) wc));
      [done | | done].
    split; [| split].
    + by rewrite Hjobs', Hjobs.
    + exists (setStatus canceled now job).
      rewrite heap_modifyJob, decide_True by done.
      by rewrite Hheap, Hl.
    + intros t Hin. rewrite Hpending in Hin.
      by apply (pending_after_clearing w l job) in Hin as [_ Hne].
Qed.

Lemma cancel_prevents_scheduled_transitions_witness :
  ∃ answer w1,
    step simulatorCfg (Cancel "job-1" "2025-10-07T00:00:02.000Z") processingWorld
      = (Some answer, w1)
    ∧ statusCode answer = 200%Z
    ∧ shownStatus answer = Some canceled
    ∧ (∀ t, t ∈ pending w1 ↔ t ∈ pending processingWorld ∧ cbJob (callback t) ≠ 0)
    ∧ (∀ t, t ∈ pending w1 -> handle t ∉ timers processingJob)
    ∧ ∀ later w2, run simulatorCfg freshIds later w1 = Some w2 ->
        ∃ shown, observe simulatorCfg "job-1" w2 = Some shown
                 ∧ statusCode shown = 200%Z
                 ∧ shownStatus shown = Some canceled.
Proof.
  apply (cancel_prevents_scheduled_transitions simulatorCfg processingHistory
           processingWorld "job-1" "2025-10-07T00:00:02.000Z" 0 processingJob);
    [reflexivity | vm_compute; reflexivity | vm_compute; reflexivity | right; reflexivity].
Defined.

(** C9. At every point a simulator can reach from start-up, through job
    creations, cancellations, timers running in the order in which they fall
    due, and the passing of time, every job in the store, and every job a
    poll shows, has a result exactly when it is [succeeded] and an error
    exactly when it is [failed]. *)
Theorem result_iff_succeeded_error_iff_failed (cfg : Config) (history : list Event)
    (w : World) :
  MOCK_MODE cfg = true ->
  run cfg dueOrder history init = Some w ->
  (∀ (l : Loc) (job : MockJob), heap w !! l = Some job -> resultErrorInv job)
  ∧ (∀ (id : string) (shown : HttpResponse) (v : JobValue),
       observe cfg id w = Some shown ->
       body shown = JsonBody (JobObj v) ->
       resultErrorInv (jobOf v)).
Proof.
  intros Hmock Hrun.
  destruct (invariants_run cfg history w Hmock Hrun) as [_ Hlife].
  assert (∀ (l : Loc) (job : MockJob), heap w !! l = Some job -> resultErrorInv job)
    as Hstore.
  { intros l job Hl. destruct (Hlife l job Hl) as [Herr Hst].
    unfold resultErrorInv. rewrite Herr.
    destruct (status job); try done; destruct Hst as [Hres _];
      (split; [| split; [by intros [? ?] | done]]);
      try (rewrite Hres; split; [by intros [? ?] | done]).
    done. }
  split; [exact Hstore |].
  intros id shown v Hshown Hbody.
  unfold observe in Hshown. simpl in Hshown. unfold getJob in Hshown.
  rewrite Hmock in Hshown.
  destruct (mockJobsGet id w) as [[l job] |] eqn:Hget; simpl in Hshown;
    injection Hshown as <-; simpl in Hbody; [| discriminate].
  injection Hbody as <-. simpl.
  apply mockJobsGet_Some in Hget as [_ Hl]. exact (Hstore l job Hl).
Qed.

Lemma result_iff_succeeded_error_iff_failed_witness :
  (∀ (l : Loc) (job : MockJob), heap succeededWorld !! l = Some job -> resultErrorInv job)
  ∧ (∀ (id : string) (shown : HttpResponse) (v : JobValue),
       observe simulatorCfg id succeededWorld = Some shown ->
       body shown = JsonBody (JobObj v) ->
       resultErrorInv (jobOf v)).
Proof.
  apply (result_iff_succeeded_error_iff_failed simulatorCfg succeededHistory succeededWorld);
    [reflexivity | vm_compute; reflexivity].
Defined.

(** The order in which the two timers of a job run is what keeps the
    invariant: the callbacks do not look at the status they overwrite. Were
    the completion callback to run before the queue callback, the job would
    end up [processing] with a result on it. *)
Lemma completion_before_queue_leaves_result :
  ∃ (w : World) (job : MockJob),
    run simulatorCfg anySchedule
      [ Generate catRequest "job-1" "2025-10-07T00:00:00.000Z";
        Elapse 5000;
        TimerFires 1 "2025-10-07T00:00:05.000Z";
        TimerFires 0 "2025-10-07T00:00:05.001Z" ] init = Some w
    ∧ heap w !! 0 = Some job
    ∧ status job = processing
    ∧ is_Some (result job)
    ∧ run simulatorCfg dueOrder
        [ Generate catRequest "job-1" "2025-10-07T00:00:00.000Z";
          Elapse 5000;
          TimerFires 1 "2025-10-07T00:00:05.000Z";
          TimerFires 0 "2025-10-07T00:00:05.001Z" ] init = None.
Proof.
  eexists _, _. split; [vm_compute; reflexivity |].
  split; [reflexivity |]. split; [reflexivity |]. split; [by eexists | reflexivity].
Qed.

(** * More on the handlers *)

Section HandlerFacts.

Implicit Types (w : World) (l : Loc) (job : MockJob).

Lemma postGenerate_mock (cfg : Config) (reqBody : JSValue) (p uuid now : string) w :
  MOCK_MODE cfg = true ->
  validPrompt (getProp "prompt" (orEmptyObject reqBody)) = Some p ->
  postGenerate cfg reqBody uuid now w
  = Ret (respond 202 (JobObj (Plain (createMockJob (optionsOf reqBody p) uuid now w).1)),
         (createMockJob (optionsOf reqBody p) uuid now w).2).
Proof.
  intros Hmock Hp. unfold postGenerate. rewrite Hp, Hmock. reflexivity.
Qed.

Lemma mockJobsGet_created (options : JobOptions) (uuid now : string) w :
  ∃ job,
    mockJobsGet uuid (createMockJob options uuid now w).2 = Some (length (heap w), job)
    ∧ base job = (createMockJob options uuid now w).1
    ∧ timers job = [nextTimer w; S (nextTimer w)].
Proof.
  exists {| base := {| id := uuid; status := queued; created_at := now;
                       updated_at := now; result := None; error := None;
                       options := options |};
            timers := [nextTimer w; S (nextTimer w)] |}.
  split; [| split; reflexivity].
  rewrite createMockJob_world.
  unfold mockJobsGet. simpl. rewrite lookup_insert_eq.
  by rewrite list_lookup_middle.
Qed.

Lemma observe_mock (cfg : Config) (key : string) w :
  MOCK_MODE cfg = true ->
  observe cfg key w
  = Some match mockJobsGet key w with
         | Some (_, job) => respond 200 (JobObj (Plain (serializeJob job)))
         | None => jobNotFound
         end.
Proof.
  intros Hmock. unfold observe. simpl. unfold getJob. rewrite Hmock.
  by destruct (mockJobsGet key w) as [[l job] |].
Qed.

(** X6. A create that was accepted (202) is found by the next poll of the id
    it returned: the poll answers 200 with the very body the create sent. *)
Theorem poll_after_create_returns_created_job (cfg : Config) (reqBody : JSValue)
    (uuid now : string) w (answer : HttpResponse) (w' : World) :
  MOCK_MODE cfg = true ->
  step cfg (Generate reqBody uuid now) w = (Some answer, w') ->
  statusCode answer = 202%Z ->
  observe cfg uuid w' = Some {| statusCode := 200; body := body answer |}.
Proof.
  intros Hmock Hstep Hcode. simpl in Hstep.
  destruct (validPrompt (getProp "prompt" (orEmptyObject reqBody))) as [p |] eqn:Hp.
  - rewrite (postGenerate_mock cfg reqBody p uuid now w Hmock Hp) in Hstep.
    destruct (mockJobsGet_created (optionsOf reqBody p) uuid now w) as (job & Hget & Hbase & _).
    destruct (createMockJob (optionsOf reqBody p) uuid now w) as [created w1].
    simpl in Hget, Hbase.
    unfold settle in Hstep. injection Hstep as <- <-.
    rewrite (observe_mock cfg uuid _ Hmock), Hget, Hbase. by destruct created.
  - unfold postGenerate in Hstep. rewrite Hp in Hstep. simpl in Hstep.
    injection Hstep as <- <-. discriminate Hcode.
Qed.

Lemma poll_after_create_returns_created_job_witness :
  ∃ answer w',
    step simulatorCfg (Generate fullRequest "job-2" "2025-10-07T00:00:03.000Z") canceledWorld
      = (Some answer, w')
    ∧ observe simulatorCfg "job-2" w' = Some {| statusCode := 200; body := body answer |}.
Proof.
  eexists _, _. split; [reflexivity |].
  apply (poll_after_create_returns_created_job simulatorCfg fullRequest "job-2"
           "2025-10-07T00:00:03.000Z" canceledWorld); reflexivity.
Defined.

(** X8. Canceling a job that is not yet terminal answers 200 with the
    projection of that job in which only [status] (now [canceled]) and
    [updated_at] (now the time of the cancel) have changed; a poll right
    after gives the same answer. *)
Theorem cancel_active_answer (cfg : Config) (key now : string) w l job :
  MOCK_MODE cfg = true ->
  mockJobsGet key w = Some (l, job) ->
  isTerminal (status job) = false ->
  (step cfg (Cancel key now) w).1
  = Some (respond 200 (JobObj (Plain
      {| id := id job; status := canceled; created_at := created_at job;
         updated_at := now; result := result job; error := error job;
         options := options job |})))
  ∧ observe cfg key (step cfg (Cancel key now) w).2 = (step cfg (Cancel key now) w).1.
Proof.
  intros Hmock Hget Hterm.
  pose proof Hget as [Hkey Hl]%mockJobsGet_Some.
  simpl. unfold deleteJob, cancelMockJob. rewrite Hmock, Hget, Hterm. simpl.
  split; [reflexivity |].
  rewrite (observe_mock cfg key _ Hmock).
  set (wc := foldl (fun w timer => clearTimeout timer w) w (timers job)).
  destruct (clearTimeouts_spec (timers job) w) as (Hheap & Hjobs & _ & _).
  fold wc in Hheap, Hjobs.
  destruct (rest_modifyJob l (setStatus canceled now) wc) as (_ & Hjobs' & _).
  rewrite (proj2 (mockJobsGet_Some key (modifyJob l (setStatus canceled now) wc) l
                    (setStatus canceled now job))); [reflexivity |].
  split; [by rewrite Hjobs', Hjobs |].
  rewrite heap_modifyJob, decide_True by done. by rewrite Hheap, Hl.
Qed.

Lemma cancel_active_answer_witness :
  (step simulatorCfg (Cancel "job-1" "2025-10-07T00:00:02.000Z") processingWorld).1
  = Some (respond 200 (JobObj (Plain
      {| id := id processingJob; status := canceled;
         created_at := created_at processingJob;
         updated_at := "2025-10-07T00:00:02.000Z"; result := result processingJob;
         error := error processingJob; options := options processingJob |})))
  ∧ observe simulatorCfg "job-1"
      (step simulatorCfg (Cancel "job-1" "2025-10-07T00:00:02.000Z") processingWorld).2
    = (step simulatorCfg (Cancel "job-1" "2025-10-07T00:00:02.000Z") processingWorld).1.
Proof.
  apply (cancel_active_answer simulatorCfg "job-1" "2025-10-07T00:00:02.000Z"
           processingWorld 0 processingJob);
    [reflexivity | vm_compute; reflexivity | reflexivity].
Defined.

(** X9. In simulator mode every answer to a create or a poll, and every
    answer to a cancel of a job that is unknown or not yet terminal, has
    public keys only: [timers] is not among them. *)
Theorem answers_carry_public_keys_only (cfg : Config) (ev : Event) w
    (answer : HttpResponse) :
  MOCK_MODE cfg = true ->
  (∀ key now l job, ev = Cancel key now -> mockJobsGet key w = Some (l, job) ->
     isTerminal (status job) = false) ->
  (step cfg ev w).1 = Some answer ->
  bodyKeys (body answer) ⊆ projectionKeys ∧ "timers" ∉ bodyKeys (body answer).
Proof.
  intros Hmock Hactive Hanswer.
  assert (bodyKeys (body answer) ⊆ projectionKeys) as Hsub.
  { assert (["error"] ⊆ projectionKeys) as Herror.
    { intros k Hk. apply list_elem_of_singleton in Hk as ->.
      unfold projectionKeys. rewrite list_elem_of_In. simpl. tauto. }
    destruct ev as [reqBody uuid now | key | key now | h now | ms]; simpl in Hanswer;
      try discriminate.
    - destruct (validPrompt (getProp "prompt" (orEmptyObject reqBody))) as [p |] eqn:Hp.
      + rewrite (postGenerate_mock cfg reqBody p uuid now w Hmock Hp) in Hanswer.
        destruct (createMockJob (optionsOf reqBody p) uuid now w) as [created w1].
        injection Hanswer as <-. apply plain_job_keys_public.
      + unfold postGenerate in Hanswer. rewrite Hp in Hanswer.
        by injection Hanswer as <-.
    - unfold getJob in Hanswer. rewrite Hmock in Hanswer.
      destruct (mockJobsGet key w) as [[l job] |]; injection Hanswer as <-;
        [apply plain_job_keys_public | done].
    - unfold deleteJob, cancelMockJob in Hanswer. rewrite Hmock in Hanswer.
      destruct (mockJobsGet key w) as [[l job] |] eqn:Hget.
      + rewrite (Hactive key now l job eq_refl Hget) in Hanswer.
        injection Hanswer as <-. apply plain_job_keys_public.
      + by injection Hanswer as <-. }
  split; [exact Hsub |].
  intros Hin. apply Hsub in Hin. revert Hin.
  apply (stored_job_keys_expose_timers processingJob).
Qed.

Lemma answers_carry_public_keys_only_witness :
  ∃ answer,
    (step simulatorCfg (Cancel "job-1" "2025-10-07T00:00:02.000Z") processingWorld).1
      = Some answer
    ∧ bodyKeys (body answer) ⊆ projectionKeys ∧ "timers" ∉ bodyKeys (body answer).
Proof.
  eexists. split; [reflexivity |].
  apply (answers_carry_public_keys_only simulatorCfg
           (Cancel "job-1" "2025-10-07T00:00:02.000Z") processingWorld);
    [reflexivity | | reflexivity].
  intros key now l job [= <- <-] Hget. vm_compute in Hget.
  injection Hget as <- <-. reflexivity.
Defined.

End HandlerFacts.

(** * The proxy *)

Section ProxyFacts.

Implicit Types (w : World) (net : FetchRequest -> FetchOutcome).

Lemma validPrompt_Some (v : JSValue) (p : string) :
  validPrompt v = Some p -> v = Some (JStr p) ∧ p ≠ "".
Proof.
  unfold validPrompt. destruct v as [[| b | n | s | items | fields] |]; simpl;
    try discriminate; try (destruct (negb _); discriminate).
  destruct (String.eqb_spec s ""); simpl; [discriminate |].
  by intros [= <-].
Qed.

(** X10. In proxy mode with a credential, a create whose prompt is valid
    sends one POST to the base address, with the JSON content type and the
    bearer credential, carrying the prompt and whichever of [duration],
    [aspectRatio] (as [aspect_ratio]), [width], [height] the request had, as
    they came. An upstream success with a JSON body is answered 202 with
    that body, whatever the upstream success code; an upstream failure with
    a JSON body is relayed under its own status; a body that does not parse
    and a failed request are answered 500. The world is left alone. *)
Theorem proxy_create_relay (cfg : Config) (reqBody : JSValue) (p uuid now : string)
    w net :
  MOCK_MODE cfg = false ->
  SORA_API_KEY cfg ≠ "" ->
  validPrompt (getProp "prompt" (orEmptyObject reqBody)) = Some p ->
  let o := orEmptyObject reqBody in
  let rq := {| url := SORA_API_BASE_URL cfg; method := "POST";
               headers := [("Content-Type", "application/json");
                           ("Authorization", "Bearer " ++ SORA_API_KEY cfg)];
               payload := Some (JObj (("prompt", JStr p)
                                        :: field "duration" (getProp "duration" o)
                                        ++ field "aspect_ratio" (getProp "aspectRatio" o)
                                        ++ field "width" (getProp "width" o)
                                        ++ field "height" (getProp "height" o))) |} in
  let answer := outcome net (postGenerate cfg reqBody uuid now w) in
  requests net (postGenerate cfg reqBody uuid now w) = [rq]
  ∧ (∀ status data, net rq = Resolved status (Some data) -> ok status = true ->
       answer = (respond 202 (Data data), w))
  ∧ (∀ status data, net rq = Resolved status (Some data) -> ok status = false ->
       answer = (respond status (Data data), w))
  ∧ (∀ status, net rq = Resolved status None ->
       answer = (respond 500 (ErrorObj "Failed to create video generation job"), w))
  ∧ (net rq = Rejected ->
       answer = (respond 500 (ErrorObj "Failed to create video generation job"), w)).
Proof.
  intros Hmode Hkey Hp o rq answer. subst o rq answer.
  pose proof (validPrompt_Some _ _ Hp) as [Hprompt _].
  unfold postGenerate. rewrite Hp, Hmode.
  destruct (String.eqb_spec (SORA_API_KEY cfg) ""); [contradiction |].
  rewrite Hprompt. unfold bearer. simpl.
  destruct (net _) as [| status [data |]] eqn:Hnet;
    [| destruct (ok status) eqn:Hok |]; simpl;
    repeat split; intros; congruence.
Qed.

Lemma proxy_create_relay_witness :
  outcome (fun _ => Resolved 201 (Some (JObj [("id", JStr "video_1")])))
    (postGenerate proxyCfg fullRequest "job-1" "now" init)
  = (respond 202 (Data (JObj [("id", JStr "video_1")])), init)
  ∧ outcome (fun _ => Resolved 429 (Some (JObj [("error", JStr "slow down")])))
      (postGenerate proxyCfg fullRequest "job-1" "now" init)
    = (respond 429 (Data (JObj [("error", JStr "slow down")])), init).
Proof.
  assert (SORA_API_KEY proxyCfg ≠ "") as Hkey by discriminate.
  split.
  - destruct (proxy_create_relay proxyCfg fullRequest "a cat" "job-1" "now" init
                (fun _ => Resolved 201 (Some (JObj [("id", JStr "video_1")])))
                eq_refl Hkey eq_refl) as (_ & Hok & _).
    exact (Hok 201%Z _ eq_refl eq_refl).
  - destruct (proxy_create_relay proxyCfg fullRequest "a cat" "job-1" "now" init
                (fun _ => Resolved 429 (Some (JObj [("error", JStr "slow down")])))
                eq_refl Hkey eq_refl) as (_ & _ & Hrelay & _).
    exact (Hrelay 429%Z _ eq_refl eq_refl).
Defined.

(** X11. In proxy mode with a credential, a get sends one GET to
    [base/id] with the bearer credential. An upstream success with a JSON
    body is answered 200 with that body; an upstream failure with a JSON
    body is relayed under its own status; a body that does not parse (an
    upstream 204 included) and a failed request are answered 500. The world
    is left alone. *)
Theorem proxy_get_relay (cfg : Config) (key : string) w net :
  MOCK_MODE cfg = false ->
  SORA_API_KEY cfg ≠ "" ->
  let rq := {| url := SORA_API_BASE_URL cfg ++ "/" ++ key; method := "GET";
               headers := [("Authorization", "Bearer " ++ SORA_API_KEY cfg)];
               payload := None |} in
  let answer := outcome net (getJob cfg key w) in
  requests net (getJob cfg key w) = [rq]
  ∧ (∀ status data, net rq = Resolved status (Some data) -> ok status = true ->
       answer = (respond 200 (Data data), w))
  ∧ (∀ status data, net rq = Resolved status (Some data) -> ok status = false ->
       answer = (respond status (Data data), w))
  ∧ (∀ status, net rq = Resolved status None ->
       answer = (respond 500 (ErrorObj "Failed to fetch video generation job"), w))
  ∧ (net rq = Rejected ->
       answer = (respond 500 (ErrorObj "Failed to fetch video generation job"), w)).
Proof.
  intros Hmode Hkey rq answer. subst rq answer.
  unfold getJob. rewrite Hmode.
  destruct (String.eqb_spec (SORA_API_KEY cfg) ""); [contradiction |].
  unfold bearer. simpl.
  destruct (net _) as [| status [data |]] eqn:Hnet;
    [| destruct (ok status) eqn:Hok |]; simpl;
    repeat split; intros; congruence.
Qed.

Lemma proxy_get_relay_witness :
  outcome (fun _ => Resolved 404 (Some (JObj [("error", JStr "no such video")])))
    (getJob proxyCfg "video_1" init)
  = (respond 404 (Data (JObj [("error", JStr "no such video")])), init)
  ∧ outcome (fun _ => Resolved 204 None) (getJob proxyCfg "video_1" init)
    = (respond 500 (ErrorObj "Failed to fetch video generation job"), init).
Proof.
  assert (SORA_API_KEY proxyCfg ≠ "") as Hkey by discriminate.
  split.
  - destruct (proxy_get_relay proxyCfg "video_1" init
                (fun _ => Resolved 404 (Some (JObj [("error", JStr "no such video")])))
                eq_refl Hkey) as (_ & _ & Hrelay & _).
    exact (Hrelay 404%Z _ eq_refl eq_refl).
  - destruct (proxy_get_relay proxyCfg "video_1" init (fun _ => Resolved 204 None)
                eq_refl Hkey) as (_ & _ & _ & Hnone & _).
    exact (Hnone 204%Z eq_refl).
Defined.

(** X12. In proxy mode no handler touches the simulator's world, whatever
    the network answers; a handler sends at most one request, and only with
    a credential, which goes out as the bearer token of that request. *)
Theorem proxy_is_stateless_and_authenticated (cfg : Config) (reqBody : JSValue)
    (key uuid now : string) w net :
  MOCK_MODE cfg = false ->
  Forall (fun p : Prog (HttpResponse * World) =>
            (outcome net p).2 = w
            ∧ (length (requests net p) ≤ 1)%nat
            ∧ ∀ rq, rq ∈ requests net p ->
                SORA_API_KEY cfg ≠ ""
                ∧ ("Authorization", "Bearer " ++ SORA_API_KEY cfg) ∈ headers rq)
    [ postGenerate cfg reqBody uuid now w; getJob cfg key w; deleteJob cfg key now w ].
Proof.
  intros Hmode.
  assert (∀ rq : FetchRequest, rq ∈ @nil FetchRequest ->
            SORA_API_KEY cfg ≠ ""
            ∧ ("Authorization", "Bearer " ++ SORA_API_KEY cfg) ∈ headers rq) as Hnil.
  { intros rq Hin. by apply elem_of_nil in Hin. }
  constructor; [| constructor; [| constructor; [| constructor]]].
  - unfold postGenerate. rewrite Hmode.
    destruct (validPrompt _) as [p |]; [| simpl; auto].
    destruct (String.eqb_spec (SORA_API_KEY cfg) "") as [| Hkey]; [simpl; auto |].
    simpl. destruct (net _) as [| status [data |]]; [| destruct (negb (ok status)) |];
      simpl; (split; [done | split; [done |]]);
      intros rq ->%list_elem_of_singleton; (split; [done |]); simpl;
      unfold bearer; rewrite !elem_of_cons; tauto.
  - unfold getJob. rewrite Hmode.
    destruct (String.eqb_spec (SORA_API_KEY cfg) "") as [| Hkey]; [simpl; auto |].
    simpl. destruct (net _) as [| status [data |]]; [| destruct (negb (ok status)) |];
      simpl; (split; [done | split; [done |]]);
      intros rq ->%list_elem_of_singleton; (split; [done |]); simpl;
      unfold bearer; rewrite !elem_of_cons; tauto.
  - unfold deleteJob. rewrite Hmode.
    destruct (String.eqb_spec (SORA_API_KEY cfg) "") as [| Hkey]; [simpl; auto |].
    simpl. destruct (net _) as [| status json]; [| destruct (status =? 204)%Z;
      [| destruct json as [data |]; [destruct (negb (ok status)) |]]];
      simpl; (split; [done | split; [done |]]);
      intros rq ->%list_elem_of_singleton; (split; [done |]); simpl;
      unfold bearer; rewrite !elem_of_cons; tauto.
Qed.

Lemma proxy_is_stateless_and_authenticated_witness :
  Forall (fun p : Prog (HttpResponse * World) =>
            (outcome badGateway p).2 = canceledWorld
            ∧ (length (requests badGateway p) ≤ 1)%nat
            ∧ ∀ rq, rq ∈ requests badGateway p ->
                SORA_API_KEY proxyCfg ≠ ""
                ∧ ("Authorization", "Bearer " ++ SORA_API_KEY proxyCfg) ∈ headers rq)
    [ postGenerate proxyCfg fullRequest "job-2" "now" canceledWorld;
      getJob proxyCfg "job-1" canceledWorld;
      deleteJob proxyCfg "job-1" "now" canceledWorld ].
Proof.
  apply (proxy_is_stateless_and_authenticated proxyCfg fullRequest "job-1" "job-2" "now"
           canceledWorld badGateway).
  reflexivity.
Defined.

(** X13. In simulator mode no handler ever sends a request upstream,
    credential or not. *)
Theorem simulator_sends_nothing_upstream (cfg : Config) (reqBody : JSValue)
    (key uuid now : string) w net :
  MOCK_MODE cfg = true ->
  requests net (postGenerate cfg reqBody uuid now w) = []
  ∧ requests net (getJob cfg key w) = []
  ∧ requests net (deleteJob cfg key now w) = [].
Proof.
  intros Hmock. split; [| split].
  - unfold postGenerate. rewrite Hmock.
    destruct (validPrompt _) as [p |]; [| done].
    by destruct (createMockJob _ uuid now w).
  - unfold getJob. rewrite Hmock. by destruct (mockJobsGet key w) as [[l job] |].
  - unfold deleteJob. rewrite Hmock. by destruct (cancelMockJob key now w) as [[v |] w'].
Qed.

Lemma simulator_sends_nothing_upstream_witness :
  requests badGateway (postGenerate simulatorCfg fullRequest "job-2" "now" canceledWorld) = []
  ∧ requests badGateway (getJob simulatorCfg "job-1" canceledWorld) = []
  ∧ requests badGateway (deleteJob simulatorCfg "job-1" "now" canceledWorld) = [].
Proof.
  apply (simulator_sends_nothing_upstream simulatorCfg fullRequest "job-1" "job-2" "now"
           canceledWorld badGateway).
  reflexivity.
Defined.

End ProxyFacts.

(** * The registry *)

Section RegistryFacts.

Implicit Types (w : World) (l : Loc) (job : MockJob) (key : string).

Lemma registryInv_modifyJob l (f : MockJob -> MockJob) w :
  (∀ job, id (f job) = id job) ->
  registryInv w -> registryInv (modifyJob l f w).
Proof.
  intros Hf Hreg key l' Hkey.
  destruct (rest_modifyJob l f w) as (_ & Hjobs & _). rewrite Hjobs in Hkey.
  destruct (Hreg key l' Hkey) as (job & Hl' & Hid).
  rewrite heap_modifyJob. case_decide as Heq.
  - exists (f job). rewrite Hl'. by rewrite Hf.
  - by exists job.
Qed.

Lemma registryInv_Move w (ev : Event) (w' : World) :
  registryInv w -> Move w ev w' -> registryInv w'.
Proof.
  intros Hreg Hmove.
  destruct Hmove as [ev | reqBody uuid now options | key0 now l0 job0 Hget Hterm
                     | h now t Hfind Hdue | ms].
  - done.
  - rewrite createMockJob_world. intros key l Hkey. simpl in Hkey |- *.
    rewrite lookup_insert in Hkey. case_decide as Heq.
    + injection Hkey as <-. subst key. eexists. by rewrite list_lookup_middle.
    + destruct (Hreg key l Hkey) as (job & Hl & Hid). exists job.
      split; [| done]. rewrite lookup_app_l; [done |]. by eapply lookup_lt_Some.
  - apply registryInv_modifyJob; [done |].
    destruct (clearTimeouts_spec (timers job0) w) as (Hheap & Hjobs & _).
    intros key l Hkey. rewrite Hjobs in Hkey. rewrite Hheap. by apply Hreg.
  - assert (∃ f : MockJob -> MockJob, (∀ job, id (f job) = id job)
                 ∧ runCallback (callback t) now (clearTimeout h w)
                   = modifyJob (cbJob (callback t)) f (clearTimeout h w)) as (f & Hf & ->).
    { destruct (callback t); simpl; eexists; (split; [| reflexivity]); done. }
    by apply registryInv_modifyJob.
  - done.
Qed.

Lemma registryInv_run (cfg : Config) (allowed : Event -> World -> bool)
    (evs : list Event) w :
  MOCK_MODE cfg = true -> run cfg allowed evs init = Some w -> registryInv w.
Proof.
  intros Hmock. apply (run_invariant cfg allowed registryInv).
  - intros ev w0 Hreg _. eapply registryInv_Move; [done | by apply step_Move].
  - intros key l Hkey. simpl in Hkey. by rewrite lookup_empty in Hkey.
Qed.

(** X5. In every state the simulator can reach, each registry entry points
    at a live job whose [id] is the key it is filed under, and two
    different keys never share a job. *)
Theorem registry_keys_are_job_ids (cfg : Config) (history : list Event) w :
  MOCK_MODE cfg = true ->
  run cfg anySchedule history init = Some w ->
  (∀ key l, mockJobs w !! key = Some l ->
     ∃ job, heap w !! l = Some job ∧ id job = key)
  ∧ (∀ key key' l, mockJobs w !! key = Some l -> mockJobs w !! key' = Some l ->
       key = key').
Proof.
  intros Hmock Hrun.
  pose proof (registryInv_run cfg anySchedule history w Hmock Hrun) as Hreg.
  split; [exact Hreg |].
  intros key key' l Hkey Hkey'.
  destruct (Hreg key l Hkey) as (job & Hl & <-).
  destruct (Hreg key' l Hkey') as (job' & Hl' & <-).
  congruence.
Qed.

Lemma registry_keys_are_job_ids_witness :
  (∀ key l, mockJobs succeededWorld !! key = Some l ->
     ∃ job, heap succeededWorld !! l = Some job ∧ id job = key)
  ∧ (∀ key key' l, mockJobs succeededWorld !! key = Some l ->
       mockJobs succeededWorld !! key' = Some l -> key = key').
Proof.
  apply (registry_keys_are_job_ids simulatorCfg succeededHistory succeededWorld);
    [reflexivity | vm_compute; reflexivity].
Defined.

(** X3. A job is never taken out of the registry, and its [id],
    [created_at], [options] and timer handles never change: whatever
    happens after (requests, timers, time; no id handed out twice), the key
    still leads to the same object with those fields as they were. *)
Theorem registry_entries_persist (cfg : Config) (evs : list Event) w (w' : World)
    key l job :
  MOCK_MODE cfg = true ->
  run cfg freshIds evs w = Some w' ->
  mockJobsGet key w = Some (l, job) ->
  ∃ job', mockJobsGet key w' = Some (l, job')
          ∧ id job' = id job
          ∧ created_at job' = created_at job
          ∧ options job' = options job
          ∧ timers job' = timers job.
Proof.
  intros Hmock Hrun Hget.
  set (P := fun w0 : World =>
              ∃ job', mockJobsGet key w0 = Some (l, job')
                      ∧ id job' = id job ∧ created_at job' = created_at job
                      ∧ options job' = options job ∧ timers job' = timers job).
  apply (run_invariant cfg freshIds P) with (evs := evs) (w := w); [| by exists job | done].
  clear Hrun Hget. clear w w'. intros ev w (job' & Hget & Hsame) Hfresh.
  assert (∀ (l0 : Loc) (f : MockJob -> MockJob) (w0 : World),
            (∀ j, id (f j) = id j ∧ created_at (f j) = created_at j
                  ∧ options (f j) = options j ∧ timers (f j) = timers j) ->
            mockJobs w0 = mockJobs w -> heap w0 = heap w ->
            P (modifyJob l0 f w0)) as Hmodify.
  { intros l0 f w0 Hf Hjobs Hheap.
    apply mockJobsGet_Some in Hget as [Hkey Hl].
    destruct (rest_modifyJob l0 f w0) as (_ & Hjobs' & _).
    destruct (decide (l0 = l)) as [-> | Hne].
    - exists (f job'). split.
      + apply mockJobsGet_Some. split; [by rewrite Hjobs', Hjobs |].
        rewrite heap_modifyJob, decide_True, Hheap, Hl; done.
      + destruct (Hf job') as (-> & -> & -> & ->). done.
    - exists job'. split; [| done].
      apply mockJobsGet_Some. split; [by rewrite Hjobs', Hjobs |].
      rewrite heap_modifyJob, decide_False, Hheap; done. }
  pose proof (step_Move cfg ev w Hmock) as Hmove.
  destruct Hmove as [ev | reqBody uuid now options | key0 now l0 job0 Hget0 Hterm
                     | h now t Hfind Hdue | ms].
  - by exists job'.
  - rewrite createMockJob_world. exists job'. split; [| done].
    apply mockJobsGet_Some in Hget as [Hkey Hl].
    apply mockJobsGet_Some. simpl in Hfresh |- *. split.
    + rewrite lookup_insert_ne; [done |]. intros ->. by rewrite Hkey in Hfresh.
    + rewrite lookup_app_l; [done |]. by eapply lookup_lt_Some.
  - destruct (clearTimeouts_spec (timers job0) w) as (Hheap & Hjobs & _).
    by apply Hmodify.
  - destruct (callback t); simpl; by apply Hmodify.
  - by exists job'.
Qed.

Lemma registry_entries_persist_witness :
  ∃ job', mockJobsGet "job-1" succeededWorld = Some (0, job')
          ∧ id job' = id processingJob
          ∧ created_at job' = created_at processingJob
          ∧ options job' = options processingJob
          ∧ timers job' = timers processingJob.
Proof.
  apply (registry_entries_persist simulatorCfg
           [Elapse 4000; TimerFires 1 "2025-10-07T00:00:05.000Z"] processingWorld);
    [reflexivity | vm_compute; reflexivity | vm_compute; reflexivity].
Defined.

(** X7. A request about one job leaves what a poll shows of every other
    job as it was. *)
Theorem requests_leave_other_jobs_alone (cfg : Config) (history : list Event) w
    (ev : Event) key key' :
  MOCK_MODE cfg = true ->
  run cfg anySchedule history init = Some w ->
  requestFor ev = Some key' ->
  key' ≠ key ->
  observe cfg key (step cfg ev w).2 = observe cfg key w.
Proof.
  intros Hmock Hrun Hfor Hne.
  pose proof (registryInv_run cfg anySchedule history w Hmock Hrun) as Hreg.
  rewrite !(observe_mock cfg key _ Hmock). f_equal.
  assert (mockJobsGet key (step cfg ev w).2 = mockJobsGet key w) as ->; [| done].
  pose proof (step_Move cfg ev w Hmock) as Hmove.
  destruct Hmove as [ev | reqBody uuid now options | key0 now l0 job0 Hget0 Hterm
                     | h now t Hfind Hdue | ms]; try discriminate Hfor; [done | |].
  - injection Hfor as ->. rewrite createMockJob_world.
    unfold mockJobsGet. simpl. rewrite lookup_insert_ne by done.
    destruct (mockJobs w !! key) as [l |] eqn:Hkey; [| done].
    destruct (Hreg key l Hkey) as (job & Hl & _).
    rewrite lookup_app_l; [done |]. by eapply lookup_lt_Some.
  - injection Hfor as ->.
    destruct (clearTimeouts_spec (timers job0) w) as (Hheap & Hjobs & _).
    destruct (rest_modifyJob l0 (setStatus canceled now)
                (foldl (fun w timer => clearTimeout timer w) w (timers job0)))
      as (_ & Hjobs' & _).
    unfold mockJobsGet. rewrite Hjobs', Hjobs.
    destruct (mockJobs w !! key) as [l |] eqn:Hkey; [| done].
    rewrite heap_modifyJob, Hheap. rewrite decide_False; [done |].
    intros ->. apply mockJobsGet_Some in Hget0 as [Hkey0 _].
    destruct (Hreg key l Hkey) as (job & Hl & Hid).
    destruct (Hreg key' l Hkey0) as (job' & Hl' & Hid').
    congruence.
Qed.

Lemma requests_leave_other_jobs_alone_witness :
  observe simulatorCfg "job-1"
    (step simulatorCfg (Generate fullRequest "job-2" "2025-10-07T00:00:06.000Z")
       succeededWorld).2
  = observe simulatorCfg "job-1" succeededWorld.
Proof.
  apply (requests_leave_other_jobs_alone simulatorCfg succeededHistory succeededWorld
           (Generate fullRequest "job-2" "2025-10-07T00:00:06.000Z") "job-1" "job-2");
    [reflexivity | vm_compute; reflexivity | reflexivity | discriminate].
Defined.

End RegistryFacts.

(** * The lifecycle, step by step *)

Section LifecycleFacts.

Implicit Types (w : World) (l : Loc) (job : MockJob) (t : Timer).

Lemma frozen_Move l job w (ev : Event) (w' : World) :
  frozen l job w -> Move w ev w' -> frozen l job w'.
Proof.
  intros Hfrozen Hmove. pose proof Hfrozen as (Hl & Hterm & Hnone).
  destruct Hmove as [ev | reqBody uuid now options | key0 now l0 job0 Hget0 Hterm0
                     | h now t Hfind Hdue | ms].
  - done.
  - pose proof (lookup_lt_Some _ _ _ Hl) as Hlt.
    rewrite createMockJob_world. split; [| split; [done |]]; simpl.
    + by rewrite lookup_app_l.
    + intros t Hin. simpl in Hin.
      rewrite elem_of_app, !elem_of_cons, elem_of_nil in Hin.
      destruct Hin as [Hin | [-> | [-> | []]]]; [by apply Hnone | simpl; lia | simpl; lia].
  - apply mockJobsGet_Some in Hget0 as [_ Hl0].
    destruct (clearTimeouts_spec (timers job0) w) as (Hheap & _ & _ & Hpend).
    destruct (rest_modifyJob l0 (setStatus canceled now)
                (foldl (fun w timer => clearTimeout timer w) w (timers job0)))
      as (Hpending & _).
    assert (l0 ≠ l) as Hne by (intros ->; congruence).
    split; [| split; [done |]].
    + by rewrite heap_modifyJob, decide_False, Hheap.
    + intros t Hin. rewrite Hpending in Hin. apply Hpend in Hin as [Hin _]. by apply Hnone.
  - pose proof (findTimer_Some h w t Hfind) as [Hin Hh].
    assert (∃ f, runCallback (callback t) now (clearTimeout h w)
                 = modifyJob (cbJob (callback t)) f (clearTimeout h w)) as [f ->].
    { destruct (callback t); simpl; eauto. }
    destruct (rest_modifyJob (cbJob (callback t)) f (clearTimeout h w)) as (Hpending & _).
    split; [| split; [done |]].
    + rewrite heap_modifyJob, decide_False; [done |]. by apply Hnone.
    + intros t' Hin'. rewrite Hpending in Hin'.
      apply elem_of_pending_clearTimeout in Hin' as [Hin' _]. by apply Hnone.
  - done.
Qed.

(** X4. Once a job is [succeeded] or [canceled] (or [failed]) nothing the
    simulator does touches it again: whatever requests come and whichever
    timers run afterwards, in any order, the stored job stays exactly as it
    was, [updated_at] and [result] included. *)
Theorem terminal_job_never_changes (cfg : Config) (history later : list Event)
    w (w' : World) l job :
  MOCK_MODE cfg = true ->
  run cfg dueOrder history init = Some w ->
  heap w !! l = Some job ->
  isTerminal (status job) = true ->
  run cfg anySchedule later w = Some w' ->
  heap w' !! l = Some job.
Proof.
  intros Hmock Hrun Hl Hterm Hlater.
  destruct (invariants_run cfg history w Hmock Hrun) as [_ Hlife].
  assert (frozen l job w) as Hfrozen.
  { split; [done | split; [done |]].
    destruct (Hlife l job Hl) as [_ Hst].
    destruct (status job); try discriminate; by destruct Hst. }
  assert (frozen l job w') as [Hl' _]; [| done].
  apply (run_invariant cfg anySchedule (frozen l job)) with (evs := later) (w := w);
    [| done | done].
  intros ev w0 Hfr _. eapply frozen_Move; [done | by apply step_Move].
Qed.

Lemma terminal_job_never_changes_witness :
  heap (step simulatorCfg (TimerFires 0 "2025-10-07T00:00:07.000Z")
          (step simulatorCfg (Cancel "job-1" "2025-10-07T00:00:06.000Z")
             succeededWorld).2).2 !! 0 = Some succeededJob.
Proof.
  apply (terminal_job_never_changes simulatorCfg succeededHistory
           [Cancel "job-1" "2025-10-07T00:00:06.000Z";
            TimerFires 0 "2025-10-07T00:00:07.000Z"] succeededWorld);
    [reflexivity | vm_compute; reflexivity | reflexivity | reflexivity | reflexivity].
Defined.

Lemma queue_fires_on_queued w l job t :
  jobOk w l job -> t ∈ pending w -> callback t = QueueCb l -> status job = queued.
Proof.
  intros [_ Hst] Hin Hcb. destruct (status job); [done | | | done |].
  - destruct Hst as [_ Hq]. by destruct (Hq t Hin).
  - destruct Hst as [_ Hq]. destruct (Hq t Hin). by rewrite Hcb.
  - destruct Hst as [_ Hq]. destruct (Hq t Hin). by rewrite Hcb.
Qed.

Lemma completion_fires_on_processing w l job t :
  jobOk w l job -> t ∈ pending w -> callback t = CompletionCb l ->
  (∀ t', t' ∈ pending w -> (due t <= due t')%N) ->
  status job = processing.
Proof.
  intros [_ Hst] Hin Hcb Hfirst. destruct (status job); [| done | | done |].
  - destruct Hst as [_ Hq]. destruct (Hq t Hin Hcb) as (tq & Hinq & _ & Hlt).
    specialize (Hfirst tq Hinq). lia.
  - destruct Hst as [_ Hq]. destruct (Hq t Hin). by rewrite Hcb.
  - destruct Hst as [_ Hq]. destruct (Hq t Hin). by rewrite Hcb.
Qed.

Lemma same_job w l job (job' : MockJob) :
  heap w !! l = Some job -> heap w !! l = Some job' -> job' = job.
Proof. intros Hl Hl'. rewrite Hl in Hl'. by injection Hl'. Qed.

(** X15. With timers run in the order in which they fall due, one step of
    the simulator either leaves a stored job exactly as it was or moves it
    along one edge of the lifecycle ([queued] to [processing], [processing]
    to [succeeded], [queued] or [processing] to [canceled]), stamping
    [updated_at] with the time of that step and leaving [id], [created_at]
    and [options] alone. *)
Theorem transitions_follow_lifecycle (cfg : Config) (history : list Event) w
    (ev : Event) l job (job' : MockJob) :
  MOCK_MODE cfg = true ->
  run cfg dueOrder history init = Some w ->
  dueOrder ev w = true ->
  heap w !! l = Some job ->
  heap (step cfg ev w).2 !! l = Some job' ->
  job' = job
  ∨ (transition (status job) (status job') = true
     ∧ eventNow ev = Some (updated_at job')
     ∧ id job' = id job
     ∧ created_at job' = created_at job
     ∧ options job' = options job).
Proof.
  intros Hmock Hrun Horder Hl Hl'.
  destruct (invariants_run cfg history w Hmock Hrun) as [Hinv Hlife].
  pose proof (Hlife l job Hl) as Hok.
  pose proof (step_Move cfg ev w Hmock) as Hmove.
  remember (step cfg ev w).2 as w1 eqn:Hw1. clear Hw1.
  destruct Hmove as [ev | reqBody uuid now options | key0 now l0 job0 Hget0 Hterm0
                     | h now t Hfind Hdue | ms].
  - left. by apply (same_job w l).
  - left. rewrite createMockJob_world in Hl'. simpl in Hl'.
    rewrite lookup_app_l in Hl' by (by eapply lookup_lt_Some).
    by apply (same_job w l).
  - apply mockJobsGet_Some in Hget0 as [_ Hl0].
    destruct (clearTimeouts_spec (timers job0) w) as (Hheap & _).
    rewrite heap_modifyJob, Hheap in Hl'. case_decide as Heq.
    + subst l0. rewrite Hl in Hl0. injection Hl0 as <-.
      rewrite Hl in Hl'. injection Hl' as <-. right. simpl.
      split; [| done]. by destruct (status job).
    + left. by apply (same_job w l).
  - pose proof (findTimer_Some h w t Hfind) as [Hin Hh].
    assert (∀ t', t' ∈ pending w -> (due t <= due t')%N) as Hfirst.
    { intros t' Hin'. by eapply dueOrder_fire. }
    destruct (callback t) as [l0 | l0] eqn:Hcb; simpl in Hl';
      rewrite heap_modifyJob in Hl'; simpl in Hl'; case_decide as Heq;
      try (left; by apply (same_job w l)); subst l0; rewrite Hl in Hl'; injection Hl' as <-;
      right; simpl.
    + rewrite (queue_fires_on_queued w l job t Hok Hin Hcb). done.
    + rewrite (completion_fires_on_processing w l job t Hok Hin Hcb Hfirst). done.
  - left. simpl in Hl'. by apply (same_job w l).
Qed.

Lemma transitions_follow_lifecycle_witness :
  canceledJob = processingJob
  ∨ (transition (status processingJob) (status canceledJob) = true
     ∧ eventNow (Cancel "job-1" "2025-10-07T00:00:02.000Z") = Some (updated_at canceledJob)
     ∧ id canceledJob = id processingJob
     ∧ created_at canceledJob = created_at processingJob
     ∧ options canceledJob = options processingJob).
Proof.
  apply (transitions_follow_lifecycle simulatorCfg processingHistory processingWorld
           (Cancel "job-1" "2025-10-07T00:00:02.000Z") 0 processingJob);
    [reflexivity | vm_compute; reflexivity | reflexivity | reflexivity | reflexivity].
Defined.

End LifecycleFacts.

(** * A job from creation to completion *)

Section Completion.

Implicit Types (w : World) (l : Loc) (job : MockJob) (t : Timer).

Lemma find_skip {A : Type} (f : A -> bool) (pre rest : list A) :
  (∀ x, x ∈ pre -> f x = false) -> List.find f (pre ++ rest)%list = List.find f rest.
Proof.
  induction pre as [| x pre IH]; intros Hpre; simpl; [done |].
  rewrite (Hpre x) by apply list_elem_of_here.
  apply IH. intros y Hy. apply Hpre. by apply list_elem_of_further.
Qed.

Lemma filter_keeps_all (h : Timeout) (ts : list Timer) :
  (∀ t, t ∈ ts -> handle t ≠ h) ->
  filter (fun t => stillPending h t = true) ts = ts.
Proof.
  induction ts as [| t ts IH]; intros Hts; [done |].
  rewrite filter_cons_True.
  - f_equal. apply IH. intros t' Hin. apply Hts. by apply list_elem_of_further.
  - unfold stillPending. apply negb_true_iff, Nat.eqb_neq, Hts, list_elem_of_here.
Qed.

(** Running the one timer that carries a given handle. *)
Lemma fireTimer_exact w (pre post : list Timer) t (now : string) :
  pending w = (pre ++ t :: post)%list ->
  (∀ t', t' ∈ (pre ++ post)%list -> handle t' ≠ handle t) ->
  (due t <= clock w)%N ->
  fireTimer (handle t) now w = runCallback (callback t) now (setPending (pre ++ post)%list w).
Proof.
  intros Hpending Hothers Hdue.
  unfold fireTimer, findTimer, clearTimeout. rewrite Hpending.
  rewrite find_skip.
  - simpl. rewrite Nat.eqb_refl. apply N.leb_le in Hdue. rewrite Hdue.
    f_equal. f_equal. rewrite filter_app, filter_cons_False.
    + rewrite !filter_keeps_all; [done | |]; intros t' Hin; apply Hothers;
        apply elem_of_app; tauto.
    + unfold stillPending. by rewrite Nat.eqb_refl.
  - intros t' Hin. apply Nat.eqb_neq, Hothers, elem_of_app. tauto.
Qed.

Lemma modifyJob_last (f : MockJob -> MockJob) w (hs : list MockJob) job :
  heap w = (hs ++ [job])%list ->
  modifyJob (length hs) f w = setHeap (hs ++ [f job])%list w.
Proof.
  intros Hheap. unfold modifyJob. rewrite Hheap.
  rewrite list_lookup_middle by done. f_equal.
  rewrite insert_app_r_alt by done. by rewrite Nat.sub_diag.
Qed.

Lemma old_handle_lt w t : storeInv w -> t ∈ pending w -> handle t < nextTimer w.
Proof.
  intros Hinv Hin. destruct (inv_pending w Hinv t Hin) as [Hlt ->].
  rewrite (inv_next w Hinv). destruct (callback t); simpl in *; lia.
Qed.

(** X1. A job that is created and left alone runs to completion: once at
    least 1000 ms have passed its first timer makes it [processing]; once
    at least 5000 ms have passed since creation its second timer makes it
    [succeeded], with [video_url] set to the mock URL built from its id and
    [updated_at] set to the time of that timer. The world is then the one
    before the create with the finished job added and registered: no timer
    of the job is left, and nothing else has changed but the clock. *)
Theorem job_runs_to_completion (cfg : Config) (history : list Event) w
    (reqBody : JSValue) (p uuid created started finished : string) (d1 d2 : N) :
  MOCK_MODE cfg = true ->
  run cfg anySchedule history init = Some w ->
  validPrompt (getProp "prompt" (orEmptyObject reqBody)) = Some p ->
  (1000 <= d1)%N ->
  (5000 <= d1 + d2)%N ->
  let hq := nextTimer w in
  let hc := S (nextTimer w) in
  let w1 := (step cfg (Generate reqBody uuid created) w).2 in
  let w2 := (step cfg (TimerFires hq started) (step cfg (Elapse d1) w1).2).2 in
  let w3 := (step cfg (TimerFires hc finished) (step cfg (Elapse d2) w2).2).2 in
  let final := finishedJob (optionsOf reqBody p) uuid created finished hq hc in
  (∃ shown, observe cfg uuid w1 = Some shown ∧ shownStatus shown = Some queued)
  ∧ (∃ shown, observe cfg uuid w2 = Some shown ∧ shownStatus shown = Some processing)
  ∧ observe cfg uuid w3 = Some (respond 200 (JobObj (Plain (base final))))
  ∧ w3 = {| heap := heap w ++ [final];
            mockJobs := <[uuid := length (heap w)]> (mockJobs w);
            pending := pending w;
            nextTimer := S (S (nextTimer w));
            clock := (clock w + d1 + d2)%N |}.
Proof.
  intros Hmock Hrun Hp Hd1 Hd2 hq hc w1 w2 w3 finishedJob0.
  pose proof (storeInv_run cfg anySchedule history w Hmock Hrun) as Hinv.
  assert (∀ t, t ∈ pending w -> handle t ≠ hq ∧ handle t ≠ hc) as Hold.
  { intros t Hin. pose proof (old_handle_lt w t Hinv Hin). subst hq hc. lia. }
  assert (w1 = (createMockJob (optionsOf reqBody p) uuid created w).2) as Hw1.
  { subst w1. simpl. by rewrite (postGenerate_mock cfg reqBody p uuid created w Hmock Hp). }
  rewrite createMockJob_world in Hw1. fold hq hc in Hw1.
  assert (w2 = {| heap := heap w
                    ++ [setStatus processing started
                          {| base := {| id := uuid; status := queued; created_at := created;
                                        updated_at := created; result := None;
                                        error := None;
                                        options := optionsOf reqBody p |};
                             timers := [hq; hc] |}];
                  mockJobs := <[uuid := length (heap w)]> (mockJobs w);
                  pending := pending w
                      ++ [{| handle := hc; due := (clock w + 5000)%N;
                             callback := CompletionCb (length (heap w)) |}];
                  nextTimer := S (S (nextTimer w));
                  clock := (clock w + d1)%N |}) as Hw2.
  { subst w2. rewrite Hw1. simpl.
    rewrite (fireTimer_exact _ (pending w)
               [{| handle := hc; due := (clock w + 5000)%N;
                   callback := CompletionCb (length (heap w)) |}]
               {| handle := hq; due := (clock w + 1000)%N;
                  callback := QueueCb (length (heap w)) |} started);
      [| done | | simpl; lia].
    - simpl. erewrite (modifyJob_last _ _ (heap w)); [| reflexivity]. reflexivity.
    - intros t' Hin. simpl.
      rewrite elem_of_app, list_elem_of_singleton in Hin.
      destruct Hin as [Hin | ->]; [by apply Hold | simpl; subst hq hc; lia]. }
  assert (w3 = {| heap := heap w ++ [finishedJob0];
                  mockJobs := <[uuid := length (heap w)]> (mockJobs w);
                  pending := pending w;
                  nextTimer := S (S (nextTimer w));
                  clock := (clock w + d1 + d2)%N |}) as Hw3.
  { subst w3. rewrite Hw2. simpl.
    rewrite (fireTimer_exact _ (pending w) []
               {| handle := hc; due := (clock w + 5000)%N;
                  callback := CompletionCb (length (heap w)) |} finished);
      [| done | | simpl; lia].
    - simpl. erewrite (modifyJob_last _ _ (heap w)); [| reflexivity]. simpl.
      by rewrite app_nil_r.
    - intros t' Hin. rewrite app_nil_r in Hin. simpl. by apply Hold. }
  split; [| split; [| split; [| exact Hw3]]].
  - rewrite (observe_mock cfg uuid w1 Hmock), Hw1. unfold mockJobsGet. simpl.
    rewrite lookup_insert_eq, list_lookup_middle by done. by eexists.
  - rewrite (observe_mock cfg uuid w2 Hmock), Hw2. unfold mockJobsGet. simpl.
    rewrite lookup_insert_eq, list_lookup_middle by done. by eexists.
  - rewrite (observe_mock cfg uuid w3 Hmock), Hw3. unfold mockJobsGet. simpl.
    rewrite lookup_insert_eq, list_lookup_middle by done. reflexivity.
Qed.

Lemma job_runs_to_completion_witness :
  let w3 := (step simulatorCfg (TimerFires 3 "2025-10-07T00:00:12.000Z")
               (step simulatorCfg (Elapse 4500)
                  (step simulatorCfg (TimerFires 2 "2025-10-07T00:00:07.500Z")
                     (step simulatorCfg (Elapse 1500)
                        (step simulatorCfg
                           (Generate fullRequest "job-2" "2025-10-07T00:00:06.000Z")
                           succeededWorld).2).2).2).2).2 in
  observe simulatorCfg "job-2" w3
  = Some (respond 200 (JobObj (Plain (base
      (finishedJob (optionsOf fullRequest "a cat") "job-2" "2025-10-07T00:00:06.000Z"
         "2025-10-07T00:00:12.000Z" 2 3)))))
  ∧ pending w3 = pending succeededWorld.
Proof.
  destruct (job_runs_to_completion simulatorCfg succeededHistory succeededWorld
              fullRequest "a cat" "job-2" "2025-10-07T00:00:06.000Z"
              "2025-10-07T00:00:07.500Z" "2025-10-07T00:00:12.000Z" 1500 4500)
    as (_ & _ & Hshown & Hworld);
    [reflexivity | vm_compute; reflexivity | reflexivity | lia | lia |].
  split; [exact Hshown |]. cbv zeta. cbv zeta in Hworld.
  change (nextTimer succeededWorld) with 2 in Hworld. by rewrite Hworld.
Defined.

End Completion.

(** * Nothing happens before a timer is due *)

Section NotBeforeDue.

Implicit Types (w : World) (l : Loc) (job : MockJob) (t : Timer).

Lemma clock_modifyJob l (f : MockJob -> MockJob) w :
  clock (modifyJob l f w) = clock w.
Proof. unfold modifyJob. by destruct (heap w !! l). Qed.

Lemma clock_clearTimeouts (hs : list Timeout) w :
  clock (foldl (fun w timer => clearTimeout timer w) w hs) = clock w.
Proof.
  revert w. induction hs as [| h hs IH]; intros w; simpl; [done |]. by rewrite IH.
Qed.

Lemma notBeforeDue_Move (c : N) l w (ev : Event) (w' : World) :
  notBeforeDue c l w -> Move w ev w' -> notBeforeDue c l w'.
Proof.
  intros Hnb Hmove. pose proof Hnb as (Hall & Hcompl & job & Hl & Hearly & Hmid).
  destruct Hmove as [ev | reqBody uuid now options | key0 now l0 job0 Hget0 Hterm0
                     | h now t Hfind Hdue | ms].
  - done.
  - pose proof (lookup_lt_Some _ _ _ Hl) as Hlt.
    rewrite createMockJob_world. split; [| split]; simpl.
    + intros t Hin Hcb. rewrite elem_of_app, !elem_of_cons, elem_of_nil in Hin.
      destruct Hin as [Hin | [-> | [-> | []]]];
        [by apply Hall | simpl in Hcb; lia | simpl in Hcb; lia].
    + intros t Hin Hcb. rewrite elem_of_app, !elem_of_cons, elem_of_nil in Hin.
      destruct Hin as [Hin | [-> | [-> | []]]];
        [by apply Hcompl | discriminate Hcb | injection Hcb; lia].
    + exists job. by rewrite lookup_app_l.
  - apply mockJobsGet_Some in Hget0 as [_ Hl0].
    destruct (clearTimeouts_spec (timers job0) w) as (Hheap & _ & _ & Hpend).
    destruct (rest_modifyJob l0 (setStatus canceled now)
                (foldl (fun w timer => clearTimeout timer w) w (timers job0)))
      as (Hpending & _).
    assert (clock (modifyJob l0 (setStatus canceled now)
                     (foldl (fun w timer => clearTimeout timer w) w (timers job0)))
            = clock w) as Hclock.
    { by rewrite clock_modifyJob, clock_clearTimeouts. }
    split; [| split].
    + intros t Hin. rewrite Hpending in Hin. apply Hpend in Hin as [Hin _]. by apply Hall.
    + intros t Hin. rewrite Hpending in Hin. apply Hpend in Hin as [Hin _]. by apply Hcompl.
    + rewrite Hclock. destruct (decide (l0 = l)) as [-> | Hne].
      * exists (setStatus canceled now job).
        rewrite heap_modifyJob, decide_True, Hheap, Hl by done.
        split; [done |]. simpl. split; [by right |].
        intros Hlt. by destruct (Hmid Hlt).
      * exists job. by rewrite heap_modifyJob, decide_False, Hheap.
  - pose proof (findTimer_Some h w t Hfind) as [Hin Hh].
    assert (∀ t', t' ∈ pending (runCallback (callback t) now (clearTimeout h w)) ->
                  t' ∈ pending w) as Hsub.
    { intros t' Hin'.
      assert (pending (runCallback (callback t) now (clearTimeout h w))
              = pending (clearTimeout h w)) as Heq.
      { destruct (callback t); simpl; apply rest_modifyJob. }
      rewrite Heq in Hin'. by apply elem_of_pending_clearTimeout in Hin' as [? _]. }
    assert (clock (runCallback (callback t) now (clearTimeout h w)) = clock w) as Hclock.
    { destruct (callback t); simpl; by rewrite clock_modifyJob. }
    split; [| split].
    + intros t' Hin'. apply Hall. by apply Hsub.
    + intros t' Hin'. apply Hcompl. by apply Hsub.
    + rewrite Hclock.
      destruct (decide (cbJob (callback t) = l)) as [Hown | Hother].
      * pose proof (Hall t Hin Hown) as Hlate.
        destruct (callback t) as [l0 | l0] eqn:Hcb; simpl in Hown; subst l0; simpl.
        -- exists (setStatus processing now job).
           rewrite heap_modifyJob, decide_True by done. simpl. rewrite Hl.
           split; [done |]. simpl. split; [intros; lia |].
           intros Hlt. by destruct (Hmid Hlt).
        -- pose proof (Hcompl t Hin Hcb) as Hlater.
           eexists. rewrite heap_modifyJob, decide_True by done. simpl. rewrite Hl.
           split; [reflexivity |]. split; intros; lia.
      * exists job. split; [| done].
        destruct (callback t) as [l0 | l0]; simpl in Hother |- *;
          by rewrite heap_modifyJob, decide_False.
  - split; [done | split; [done |]]. exists job. simpl.
    split; [done |]. split; intros Hlt; [apply Hearly | apply Hmid]; lia.
Qed.

Lemma registry_key_kept_Move (key : string) l w (ev : Event) (w' : World) :
  mockJobs w !! key = Some l -> freshIds ev w = true -> Move w ev w' ->
  mockJobs w' !! key = Some l.
Proof.
  intros Hkey Hfresh Hmove.
  destruct Hmove as [ev | reqBody uuid now options | key0 now l0 job0 Hget0 Hterm0
                     | h now t Hfind Hdue | ms].
  - done.
  - rewrite createMockJob_world. simpl in Hfresh |- *.
    rewrite lookup_insert_ne; [done |]. intros ->. by rewrite Hkey in Hfresh.
  - destruct (clearTimeouts_spec (timers job0) w) as (_ & Hjobs & _).
    destruct (rest_modifyJob l0 (setStatus canceled now)
                (foldl (fun w timer => clearTimeout timer w) w (timers job0)))
      as (_ & Hjobs' & _).
    by rewrite Hjobs', Hjobs.
  - destruct (callback t); simpl;
      match goal with
      | |- mockJobs (modifyJob ?a ?f ?w0) !! _ = _ =>
          destruct (rest_modifyJob a f w0) as (_ & -> & _)
      end; done.
  - done.
Qed.

(** X2. A job does not move before its timers are due: polled while less
    than 1000 ms of loop time have passed since its creation it is [queued]
    (or [canceled], if someone canceled it), and while less than 5000 ms
    have passed it is not [succeeded] and carries no result — whatever
    requests came in between and whichever timers the loop tried to run. *)
Theorem no_transition_before_due (cfg : Config) (history later : list Event) w
    (reqBody : JSValue) (p uuid now : string) (w2 : World) :
  MOCK_MODE cfg = true ->
  run cfg anySchedule history init = Some w ->
  validPrompt (getProp "prompt" (orEmptyObject reqBody)) = Some p ->
  run cfg freshIds later (step cfg (Generate reqBody uuid now) w).2 = Some w2 ->
  ∃ shown : Job,
    observe cfg uuid w2 = Some (respond 200 (JobObj (Plain shown)))
    ∧ ((clock w2 < clock w + 1000)%N -> status shown = queued ∨ status shown = canceled)
    ∧ ((clock w2 < clock w + 5000)%N -> status shown ≠ succeeded ∧ result shown = None).
Proof.
  intros Hmock Hrun Hp Hlater.
  pose proof (storeInv_run cfg anySchedule history w Hmock Hrun) as Hinv.
  set (l := length (heap w)).
  set (P := fun w0 : World => mockJobs w0 !! uuid = Some l ∧ notBeforeDue (clock w) l w0).
  assert (P w2) as [Hkey (_ & _ & job & Hl & Hearly & Hmid)].
  { apply (run_invariant cfg freshIds P) with (evs := later)
            (w := (step cfg (Generate reqBody uuid now) w).2); [| | done].
    - intros ev w0 [Hkey Hnb] Hfresh. pose proof (step_Move cfg ev w0 Hmock) as Hmove.
      split; [by eapply registry_key_kept_Move | by eapply notBeforeDue_Move].
    - simpl. rewrite (postGenerate_mock cfg reqBody p uuid now w Hmock Hp).
      unfold settle. cbv beta iota. rewrite createMockJob_world.
      split; [apply lookup_insert_eq |].
      split; [| split]; simpl.
      + intros t Hin Hcb. rewrite elem_of_app, !elem_of_cons, elem_of_nil in Hin.
        destruct Hin as [Hin | [-> | [-> | []]]]; simpl; [| lia | lia].
        destruct (inv_pending w Hinv t Hin) as [Hlt _]. subst l. lia.
      + intros t Hin Hcb. rewrite elem_of_app, !elem_of_cons, elem_of_nil in Hin.
        destruct Hin as [Hin | [-> | [-> | []]]]; simpl; [| discriminate Hcb | lia].
        destruct (inv_pending w Hinv t Hin) as [Hlt _]. rewrite Hcb in Hlt.
        simpl in Hlt. subst l. lia.
      + eexists. split; [by apply list_lookup_middle |]. simpl. auto. }
  exists (serializeJob job). split; [| done].
  rewrite (observe_mock cfg uuid w2 Hmock).
  by rewrite (proj2 (mockJobsGet_Some uuid w2 l job)).
Qed.

Lemma no_transition_before_due_witness :
  ∃ shown : Job,
    observe simulatorCfg "job-2"
      (step simulatorCfg (TimerFires 2 "2025-10-07T00:00:06.999Z")
         (step simulatorCfg (Elapse 999)
            (step simulatorCfg (Generate fullRequest "job-2" "2025-10-07T00:00:06.000Z")
               succeededWorld).2).2).2
    = Some (respond 200 (JobObj (Plain shown)))
    ∧ status shown = queued.
Proof.
  destruct (no_transition_before_due simulatorCfg succeededHistory
              [Elapse 999; TimerFires 2 "2025-10-07T00:00:06.999Z"] succeededWorld
              fullRequest "a cat" "job-2" "2025-10-07T00:00:06.000Z"
              (step simulatorCfg (TimerFires 2 "2025-10-07T00:00:06.999Z")
                 (step simulatorCfg (Elapse 999)
                    (step simulatorCfg
                       (Generate fullRequest "job-2" "2025-10-07T00:00:06.000Z")
                       succeededWorld).2).2).2)
    as (shown & Hshown & Hearly & _);
    [reflexivity | vm_compute; reflexivity | reflexivity | reflexivity |].
  exists shown. split; [exact Hshown |].
  destruct Hearly as [Hq | Hc]; [vm_compute; reflexivity | exact Hq |].
  rewrite (observe_mock simulatorCfg "job-2" _ eq_refl) in Hshown.
  vm_compute in Hshown. injection Hshown as <-. discriminate Hc.
Defined.

End NotBeforeDue.

(** * The options of a created job *)

Section Options.










End Options.

(** * The client's reading of a status *)

(** X16. [normalizeStatus] maps the upstream spellings [in_progress] and
    [running] to [processing] and [completed] to [succeeded], and leaves
    everything else as it is; so it is idempotent, it never returns one of
    the three upstream spellings, and it does not change any status the
    simulator sends. *)
Theorem normalizeStatus_idempotent (status : JSValue) :
  normalizeStatus (normalizeStatus status) = normalizeStatus status
  ∧ (normalizeStatus status ∉ [Some (JStr "in_progress"); Some (JStr "running");
                               Some (JStr "completed")])
  ∧ (normalizeStatus status = status
     ∨ normalizeStatus status = Some (JStr "processing")
     ∨ normalizeStatus status = Some (JStr "succeeded"))
  ∧ ∀ s : JobStatus,
      normalizeStatus (Some (JStr (statusName s))) = Some (JStr (statusName s)).
Proof.
  assert (∀ a b : string, Some (JStr a) = Some (JStr b) -> a = b) as Hinj.
  { by intros a b [= ->]. }
  split; [| split; [| split]].
  - destruct status as [[| b | n | s | items | fields] |]; try reflexivity.
    simpl.
    destruct (String.eqb_spec s "in_progress") as [-> | H1]; [reflexivity |].
    destruct (String.eqb_spec s "running") as [-> | H2]; [reflexivity |].
    destruct (String.eqb_spec s "completed") as [-> | H3]; [reflexivity |].
    simpl.
    destruct (String.eqb_spec s "in_progress"); [done |].
    destruct (String.eqb_spec s "running"); [done |].
    by destruct (String.eqb_spec s "completed").
  - rewrite !not_elem_of_cons.
    destruct status as [[| b | n | s | items | fields] |]; simpl;
      try (repeat split; try discriminate; apply not_elem_of_nil).
    destruct (String.eqb_spec s "in_progress");
      [repeat split; try discriminate; apply not_elem_of_nil |].
    destruct (String.eqb_spec s "running");
      [repeat split; try discriminate; apply not_elem_of_nil |].
    destruct (String.eqb_spec s "completed");
      [repeat split; try discriminate; apply not_elem_of_nil |].
    repeat split; try apply not_elem_of_nil; intros Heq; apply Hinj in Heq; done.
  - destruct status as [[| b | n | s | items | fields] |]; simpl; auto.
    destruct (String.eqb s "in_progress"); [auto |].
    destruct (String.eqb s "running"); [auto |].
    destruct (String.eqb s "completed"); auto.
  - by intros [].
Qed.
